(** * WatChMaL launcher (main_proper_ddp.py): launch topology, process-group
      lifecycle and the two-phase task pipeline

    The launcher is modelled as a program in a small trace/error monad.
    Every call that leaves the file (file system, dataset/model/engine
    builders, engine methods, torch.distributed, logging) is recorded as an
    [Event] in the order in which the interpreter performs it.  Collaborator
    calls may raise: whether a given call raises is decided by the [World]
    the process runs in, as a function of the history of calls so far.  An
    exception stops the process where it is raised (the source has no
    [try]), and the trace up to that point is kept.

    What the model leaves out and what it fixes:
    - [hydra_main] (lines 37-63) only logs and calls [main]; the model
      starts at [main].
    - The objects built by the collaborators (model, engine, dataset) are
      opaque; the engine is known by the attributes it has and by whether
      its methods raise.
    - [hydra_config.tasks] is the one object the launcher mutates: the first
      loop of [run] deletes keys from the task descriptions and the second
      loop reads the same descriptions.  The model threads them explicitly:
      [configure_tasks] returns the descriptions as the first loop leaves
      them and [run] hands exactly these to [perform_tasks].
    - A mapping is an association list in insertion order; the mappings of
      a configuration have no duplicate keys, and on such lists [dict_get],
      [dict_contains] and [dict_remove] are [d[k]], [k in d] and
      [del d[k]].
    - Every task description is a mapping.  [open_dict] (line 140) only
      lets the loop body delete keys of such a mapping and is left out;
      a description that is not a mapping (a null description makes
      [open_dict] raise before the first membership test) is outside the
      model, and no property below lists all the ways a worker can fail.
    - The file system is the set of existing paths; other processes act on
      it through [concurrent]. *)

From Stdlib Require Import String List Bool Arith ZArith Lia Permutation.
From Stdlib Require Import DecimalString.
From Stdlib Require DecimalNat DecimalFacts.
Import ListNotations.
Local Open Scope string_scope.
Local Open Scope list_scope.

Set Implicit Arguments.
Set Warnings "-register-all".

(** ** Configuration values *)

(** OmegaConf nodes, as far as the launcher looks into them. *)
Inductive Value : Type :=
| VNone
| VBool (b : bool)
| VInt (n : Z)
| VStr (s : string)
| VList (items : list Value)
| VDict (entries : list (string * Value)).

(** An insertion-ordered mapping with string keys ([DictConfig], [dict]). *)
Definition Dict := list (string * Value).

Definition has_key (k : string) (kv : string * Value) : bool := fst kv =? k.

(** [k in d] *)
Definition dict_contains (k : string) (d : Dict) : bool :=
  existsb (has_key k) d.

(** [d[k]] *)
Definition dict_get (k : string) (d : Dict) : option Value :=
  option_map snd (find (has_key k) d).

(** [d] once [k] has been deleted from it. *)
Definition dict_remove (k : string) (d : Dict) : Dict :=
  filter (fun kv => negb (has_key k kv)) d.

(** The device a worker runs on: ['cpu'] or an integer index. *)
Inductive Device : Type :=
| DevCpu
| DevIndex (index : nat).

(** The object returned by [build_dataset]; opaque to the launcher. *)
Inductive Dataset : Type :=
| DatasetObj (handle : nat).

(** The fields of [hydra_config] that the launcher reads.  [tasks] is an
    ordered mapping from task name to task description. *)
Record HydraConfig : Type := {
  gpu_list : list nat;
  dump_path : string;
  kind : string;
  data : Value;
  model : Value;
  engine : Value;
  tasks : list (string * Dict)
}.

Definition set_kind (k : string) (c : HydraConfig) : HydraConfig :=
  {| gpu_list := gpu_list c; dump_path := dump_path c; kind := k;
     data := data c; model := model c; engine := engine c;
     tasks := tasks c |}.

(** ** Events *)

Inductive LogMsg : Type :=
| CreatingDirectory (path : string)                 (* line 73 *)
| GpuListEmpty                                      (* line 87 *)
| OneGpu                                            (* line 91 *)
| MultipleGpus                                      (* line 96 *)
| AccessibleDevices (devids : list string)          (* line 97 *)
| RunningWorker (rank : nat) (device : Device).     (* line 112 *)

Inductive Event : Type :=
| Log (m : LogMsg)
| PrintUnknownKind (kind_value : string)            (* line 155 *)
| PathExists (path : string) (answer : bool)        (* os.path.exists *)
| Makedirs (path : string)                          (* os.makedirs *)
| BuildDataset (config : HydraConfig)
| ConfigureLog
| Spawn (nprocs : nat)                              (* mp.spawn *)
| Setenv (name value : string)                      (* os.environ[..] = .. *)
| InitProcessGroup (backend init_method : string) (rank world_size : nat)
| BuildModel (model_config : Value) (device : Device) (use_dpp : bool)
| Instantiate (engine_config : Value) (dump_path : string)
              (rank : nat) (device : Device)
| SetDataset (dataset : option Dataset)
| ConfigureDataLoaders (data_config section : Value)
| ConfigureDataLoadersV2 (section : Value)
| ConfigureOptimizers (section : Value)
| ConfigureScheduler (section : Value)
| ConfigureLoss (section : Value)
| TaskCall (name : string) (kwargs : Dict)          (* line 172 *)
| DestroyProcessGroup.

Inductive Exn : Type :=
| ValueError
| KeyError (key : string)
| AttributeError (attr : string)
| FileExistsError (path : string)
| Raised (call : Event)                 (* an exception of a collaborator *)
| ProcessRaisedException (rank : nat).  (* mp.spawn: a worker failed *)

Inductive Result (A : Type) : Type :=
| Ok (a : A)
| Raise (e : Exn).
Arguments Raise {A} e.

(** ** The environment of a process *)

Record World : Type := {
  (** does this collaborator call raise, given the calls made so far? *)
  raises : list Event -> Event -> bool;
  (** does the engine have an attribute of this name? *)
  hasattr : string -> bool;
  (** [os.getcwd()] *)
  getcwd : string;
  (** the object [build_dataset] returns *)
  built_dataset : Dataset;
  (** paths that other processes create between the previous file-system
      call of this process (after the given history) and its next one *)
  concurrent : list Event -> list string
}.

Record State : Type := {
  trace : list Event;
  fs : list string;                                  (* existing paths *)
  spawned : list (nat * (list Event * Result unit))  (* rank, trace, outcome *)
}.

Definition record (ev : Event) (st : State) : State :=
  {| trace := trace st ++ [ev]; fs := fs st; spawned := spawned st |}.

Definition init_state (files : list string) : State :=
  {| trace := []; fs := files; spawned := [] |}.

(** ** The monad *)

Definition M (A : Type) : Type := World -> State -> State * Result A.

Definition ret {A} (a : A) : M A := fun _ st => (st, Ok a).

Definition bind {A B} (c : M A) (k : A -> M B) : M B :=
  fun w st =>
    match c w st with
    | (st', Ok a) => k a w st'
    | (st', Raise e) => (st', Raise e)
    end.

Definition raise {A} (e : Exn) : M A := fun _ st => (st, Raise e).

Notation "x <- c ;; k" := (bind c (fun x => k))
  (at level 61, c at next level, right associativity).
Notation "' pat <- c ;; k" := (bind c (fun x => match x with pat => k end))
  (at level 61, pat pattern, c at next level, right associativity).
Notation "c ;; k" := (bind c (fun _ => k))
  (at level 61, right associativity).

(** A statement that cannot raise (logging, printing, environment). *)
Definition emit (ev : Event) : M unit := fun _ st => (record ev st, Ok tt).

(** A call into a collaborator. *)
Definition call (ev : Event) : M unit :=
  fun w st =>
    (record ev st,
     if raises w (trace st) ev then Raise (Raised ev) else Ok tt).

Definition when (b : bool) (c : M unit) : M unit := if b then c else ret tt.

(** [for x in l: body x] *)
Fixpoint for_each {A} (l : list A) (body : A -> M unit) : M unit :=
  match l with
  | [] => ret tt
  | x :: l' => body x ;; for_each l' body
  end.

(** A loop whose body updates the element it visits in place. *)
Fixpoint for_each_update {A} (l : list A) (body : A -> M A) : M (list A) :=
  match l with
  | [] => ret []
  | x :: l' =>
      x' <- body x ;;
      l'' <- for_each_update l' body ;;
      ret (x' :: l'')
  end.

(** ** Library calls *)

Definition mem (p : string) (files : list string) : bool :=
  existsb (String.eqb p) files.

Definition os_path_exists (p : string) : M bool :=
  fun w st =>
    let files := fs st ++ concurrent w (trace st) in
    let answer := mem p files in
    ({| trace := trace st ++ [PathExists p answer]; fs := files;
        spawned := spawned st |}, Ok answer).

(** [os.makedirs(p)], with [exist_ok] left at its default [False]. *)
Definition os_makedirs (p : string) : M unit :=
  fun w st =>
    let files := fs st ++ concurrent w (trace st) in
    let tr := trace st ++ [Makedirs p] in
    if mem p files then
      ({| trace := tr; fs := files; spawned := spawned st |},
       Raise (FileExistsError p))
    else if raises w (trace st) (Makedirs p) then
      ({| trace := tr; fs := files; spawned := spawned st |},
       Raise (Raised (Makedirs p)))
    else
      ({| trace := tr; fs := files ++ [p]; spawned := spawned st |}, Ok tt).

Definition os_getcwd : M string := fun w st => (st, Ok (getcwd w)).

Definition build_dataset (c : HydraConfig) : M Dataset :=
  call (BuildDataset c) ;;
  fun w st => (st, Ok (built_dataset w)).

(** [d.pop(k)]: the value is returned and the key deleted; [KeyError] when
    the key is absent. *)
Definition pop (k : string) (d : Dict) : M (Value * Dict) :=
  match dict_get k d with
  | Some v => ret (v, dict_remove k d)
  | None => raise (KeyError k)
  end.

(** line 172: [getattr(engine, name)] called with the keyword arguments
    [kwargs] *)
Definition call_task (name : string) (kwargs : Dict) : M unit :=
  fun w st =>
    if hasattr w name then call (TaskCall name kwargs) w st
    else (st, Raise (AttributeError name)).

Definition is_failure (o : nat * (list Event * Result unit)) : bool :=
  match snd (snd o) with
  | Ok _ => false
  | Raise _ => true
  end.

(** [mp.spawn(fn, nprocs=n, args=..)]: [n] processes, process [i] runs
    [fn i] in its own world [child i], starting from an empty trace; the
    parent waits for all of them and raises if one of them failed (here:
    for the failed worker of least rank).  Each worker's run is recorded as
    it would be on its own. *)
Definition mp_spawn (child : nat -> World) (fn : nat -> M unit) (nprocs : nat)
  : M unit :=
  fun w st =>
    let st1 := record (Spawn nprocs) st in
    if raises w (trace st) (Spawn nprocs) then
      (st1, Raise (Raised (Spawn nprocs)))
    else
      let outs :=
        map (fun i =>
               let '(s, r) := fn i (child i) (init_state (fs st1)) in
               (i, (trace s, r)))
            (seq 0 nprocs) in
      let st2 := {| trace := trace st1; fs := fs st1; spawned := outs |} in
      match find is_failure outs with
      | Some o => (st2, Raise (ProcessRaisedException (fst o)))
      | None => (st2, Ok tt)
      end.

(** ** The launcher *)

(** lines 180-191 *)
Definition ddp_setup (rank world_size : nat) : M unit :=
  emit (Setenv "MASTER_ADDR" "localhost") ;;
  emit (Setenv "MASTER_PORT" "12355") ;;
  call (InitProcessGroup "nccl" "env://" rank world_size).

(** line 111 *)
Definition resolve_device (rank : nat) (gpus : list nat) : Device :=
  if (length gpus =? 0)%nat then DevCpu else DevIndex rank.

(** lines 143-156 *)
Definition configure_data_loaders_section (c : HydraConfig) (task_config : Dict)
  : M Dict :=
  if dict_contains "data_loaders" task_config then
    if kind c =? "cnn" then
      '(section, task_config) <- pop "data_loaders" task_config ;;
      call (ConfigureDataLoaders (data c) section) ;;
      ret task_config
    else if kind c =? "gnn" then
      '(section, task_config) <- pop "data_loaders" task_config ;;
      call (ConfigureDataLoadersV2 section) ;;
      ret task_config
    else
      emit (PrintUnknownKind (kind c)) ;;
      raise ValueError
  else ret task_config.

(** lines 159-160, 163-164, 167-168 *)
Definition configure_section (key : string) (method : Value -> Event)
    (task_config : Dict) : M Dict :=
  if dict_contains key task_config then
    '(section, task_config) <- pop key task_config ;;
    call (method section) ;;
    ret task_config
  else ret task_config.

(** lines 140-168: the body of the first loop, on one task description *)
Definition configure_task (c : HydraConfig) (task_config : Dict) : M Dict :=
  task_config <- configure_data_loaders_section c task_config ;;
  task_config <- configure_section "optimizers" ConfigureOptimizers task_config ;;
  task_config <- configure_section "scheduler" ConfigureScheduler task_config ;;
  configure_section "loss" ConfigureLoss task_config.

(** lines 138-168: the first loop; the descriptions are updated in place *)
Definition configure_tasks (c : HydraConfig) (ts : list (string * Dict))
  : M (list (string * Dict)) :=
  for_each_update ts
    (fun t => task_config <- configure_task c (snd t) ;;
              ret (fst t, task_config)).

(** lines 171-172: the second loop, over the descriptions as the first loop
    left them *)
Definition perform_tasks (ts : list (string * Dict)) : M unit :=
  for_each ts (fun t => call_task (fst t) (snd t)).

(** lines 109-176 *)
Definition run (rank : nat) (gpus : list nat) (dataset : option Dataset)
    (c : HydraConfig) : M unit :=
  let device := resolve_device rank gpus in
  emit (Log (RunningWorker rank device)) ;;
  when (1 <? length gpus)%nat (ddp_setup rank (length gpus)) ;;
  call (BuildModel (model c) device (1 <? length gpus)%nat) ;;
  hydra_output_dir <- os_getcwd ;;
  call (Instantiate (engine c) (hydra_output_dir ++ "/") rank device) ;;
  when (kind c =? "gnn") (call (SetDataset dataset)) ;;
  ts <- configure_tasks c (tasks c) ;;
  perform_tasks ts ;;
  when (1 <? length gpus)%nat (call DestroyProcessGroup).

(** lines 72-74 *)
Definition ensure_dump_path (p : string) : M unit :=
  present <- os_path_exists p ;;
  when (negb present)
    (emit (Log (CreatingDirectory p)) ;; os_makedirs p).

(** lines 80-83 *)
Definition acquire_dataset (c : HydraConfig) : M (option Dataset) :=
  if kind c =? "gnn" then
    d <- build_dataset c ;; ret (Some d)
  else ret None.

(** line 95: [f"cuda:{x}"] *)
Definition devid (x : nat) : string :=
  "cuda:" ++ NilZero.string_of_uint (Nat.to_uint x).

(** lines 86-105: the launch proper.  [child i] is the world in which
    spawned worker [i] runs. *)
Definition launch (child : nat -> World) (dataset : option Dataset)
    (c : HydraConfig) : M unit :=
  let gpus := gpu_list c in
  if (length gpus =? 0)%nat then
    emit (Log GpuListEmpty) ;;
    run 0 gpus dataset c
  else if (length gpus =? 1)%nat then
    emit (Log OneGpu) ;;
    run 0 gpus dataset c
  else
    let devids := map devid gpus in
    emit (Log MultipleGpus) ;;
    emit (Log (AccessibleDevices devids)) ;;
    call ConfigureLog ;;
    mp_spawn child (fun rank => run rank gpus dataset c) (length gpus).

(** lines 66-105 *)
Definition main (child : nat -> World) (c : HydraConfig) : M unit :=
  ensure_dump_path (dump_path c) ;;
  dataset <- acquire_dataset c ;;
  launch child dataset c.

(** * Vocabulary of the properties *)

(** ** Worlds *)

(** No collaborator call raises. *)
Definition quiet (w : World) : Prop := forall h ev, raises w h ev = false.

(** No collaborator raises and no other process touches the file system. *)
Definition calm (w : World) : Prop :=
  quiet w /\ forall h, concurrent w h = [].

(** ** Straight-line programs

    The control flow of a worker depends on the configuration and on the
    attributes of the engine, never on what a collaborator returns: once
    these are known, a worker is a fixed sequence of statements, cut short
    by the first one that raises. *)

Inductive Step : Type :=
| SEmit (ev : Event)     (* a statement that cannot raise *)
| SCall (ev : Event)     (* a collaborator call *)
| SRaise (e : Exn).      (* a [raise] of the launcher itself *)

Fixpoint exec (p : list Step) : M unit :=
  match p with
  | [] => ret tt
  | SEmit ev :: p' => emit ev ;; exec p'
  | SCall ev :: p' => call ev ;; exec p'
  | SRaise e :: _ => raise e
  end.

(** The events [p] produces after history [h], and how it ends. *)
Fixpoint outcome (w : World) (h : list Event) (p : list Step)
  : list Event * Result unit :=
  match p with
  | [] => ([], Ok tt)
  | SEmit ev :: p' =>
      let '(evs, r) := outcome w (h ++ [ev]) p' in (ev :: evs, r)
  | SCall ev :: p' =>
      if raises w h ev then ([ev], Raise (Raised ev))
      else let '(evs, r) := outcome w (h ++ [ev]) p' in (ev :: evs, r)
  | SRaise e :: _ => ([], Raise e)
  end.

(** [st] with [evs] added to its trace. *)
Definition extend (st : State) (evs : list Event) : State :=
  {| trace := trace st ++ evs; fs := fs st; spawned := spawned st |}.

Definition step_event (s : Step) : list Event :=
  match s with
  | SEmit ev | SCall ev => [ev]
  | SRaise _ => []
  end.

(** The events of a program that runs to its end. *)
Definition step_events (p : list Step) : list Event := flat_map step_event p.

Definition is_raise (s : Step) : bool :=
  match s with SRaise _ => true | _ => false end.

(** [c], run in [w], is the straight-line program [p] followed by
    [return a]. *)
Definition implements {A} (w : World) (c : M A) (p : list Step) (a : A) : Prop :=
  forall st, c w st = (exec p ;; ret a) w st.

(** ** The worker as a straight-line program *)

Definition section_call (method : Value -> Event) (section : option Value)
  : list Event :=
  match section with
  | Some v => [method v]
  | None => []
  end.

(** The data-loaders call of a run of kind cnn, and of the other runs that
    get to make one. *)
Definition data_loaders_call (c : HydraConfig) (section : Value) : Event :=
  if kind c =? "cnn" then ConfigureDataLoaders (data c) section
  else ConfigureDataLoadersV2 section.

(** The configuration calls a task description asks for: one per recognized
    section it holds, in the order of the four tests of the loop body. *)
Definition section_calls (c : HydraConfig) (task_config : Dict) : list Event :=
  section_call (data_loaders_call c) (dict_get "data_loaders" task_config) ++
  section_call ConfigureOptimizers (dict_get "optimizers" task_config) ++
  section_call ConfigureScheduler (dict_get "scheduler" task_config) ++
  section_call ConfigureLoss (dict_get "loss" task_config).

(** The configuration calls the whole task list asks for, task by task. *)
Definition all_section_calls (c : HydraConfig) (ts : list (string * Dict))
  : list Event :=
  flat_map (fun t => section_calls c (snd t)) ts.

(** A task description without its four recognized sections. *)
Definition strip (task_config : Dict) : Dict :=
  dict_remove "loss"
    (dict_remove "scheduler"
       (dict_remove "optimizers"
          (dict_remove "data_loaders" task_config))).

Definition strip_task (t : string * Dict) : string * Dict :=
  (fst t, strip (snd t)).

Definition recognized : list string :=
  ["data_loaders"; "optimizers"; "scheduler"; "loss"].

Definition is_recognized (k : string) : bool :=
  existsb (String.eqb k) recognized.

Definition known_kind (c : HydraConfig) : bool :=
  (kind c =? "cnn") || (kind c =? "gnn").

(** A description whose [data_loaders] section cannot be dispatched. *)
Definition blocked (c : HydraConfig) (task_config : Dict) : bool :=
  dict_contains "data_loaders" task_config && negb (known_kind c).

Definition no_data_loaders (ts : list (string * Dict)) : Prop :=
  forall t, In t ts -> dict_contains "data_loaders" (snd t) = false.

(** The statements of the loop body as the source has them: each test
    looks at the description as the previous sections left it. *)
Definition configure_task_steps_seq (c : HydraConfig) (task_config : Dict)
  : list Step :=
  let d1 := dict_remove "data_loaders" task_config in
  let d2 := dict_remove "optimizers" d1 in
  let d3 := dict_remove "scheduler" d2 in
  (if blocked c task_config then
     [SEmit (PrintUnknownKind (kind c)); SRaise ValueError]
   else map SCall (section_call (data_loaders_call c)
                     (dict_get "data_loaders" task_config))) ++
  map SCall (section_call ConfigureOptimizers (dict_get "optimizers" d1)) ++
  map SCall (section_call ConfigureScheduler (dict_get "scheduler" d2)) ++
  map SCall (section_call ConfigureLoss (dict_get "loss" d3)).

(** The same statements, every test looking at the original description. *)
Definition configure_task_steps (c : HydraConfig) (task_config : Dict)
  : list Step :=
  if blocked c task_config then
    [SEmit (PrintUnknownKind (kind c)); SRaise ValueError]
  else map SCall (section_calls c task_config).

Definition configure_steps (c : HydraConfig) (ts : list (string * Dict))
  : list Step :=
  flat_map (fun t => configure_task_steps c (snd t)) ts.

Definition perform_task_steps (w : World) (t : string * Dict) : list Step :=
  if hasattr w (fst t) then [SCall (TaskCall (fst t) (snd t))]
  else [SRaise (AttributeError (fst t))].

Definition perform_steps (w : World) (ts : list (string * Dict)) : list Step :=
  flat_map (perform_task_steps w) ts.

(** [len(gpu_list) > 1] *)
Definition multi (gpus : list nat) : bool := (1 <? length gpus)%nat.

Definition bootstrap_steps (w : World) (rank : nat) (gpus : list nat)
    (dataset : option Dataset) (c : HydraConfig) : list Step :=
  let device := resolve_device rank gpus in
  [SEmit (Log (RunningWorker rank device))] ++
  (if multi gpus then
     [SEmit (Setenv "MASTER_ADDR" "localhost");
      SEmit (Setenv "MASTER_PORT" "12355");
      SCall (InitProcessGroup "nccl" "env://" rank (length gpus))]
   else []) ++
  [SCall (BuildModel (model c) device (multi gpus));
   SCall (Instantiate (engine c) (getcwd w ++ "/") rank device)] ++
  (if kind c =? "gnn" then [SCall (SetDataset dataset)] else []).

Definition teardown_steps (gpus : list nat) : list Step :=
  if multi gpus then [SCall DestroyProcessGroup] else [].

Definition run_steps (w : World) (rank : nat) (gpus : list nat)
    (dataset : option Dataset) (c : HydraConfig) : list Step :=
  bootstrap_steps w rank gpus dataset c ++
  configure_steps c (tasks c) ++
  perform_steps w (map strip_task (tasks c)) ++
  teardown_steps gpus.

(** ** Observations on traces *)

Definition prefix {A} (l1 l2 : list A) : Prop := exists l, l2 = l1 ++ l.

Definition is_config (ev : Event) : bool :=
  match ev with
  | ConfigureDataLoaders _ _ | ConfigureDataLoadersV2 _
  | ConfigureOptimizers _ | ConfigureScheduler _ | ConfigureLoss _ => true
  | _ => false
  end.

Definition is_task (ev : Event) : bool :=
  match ev with TaskCall _ _ => true | _ => false end.

Definition is_teardown (ev : Event) : bool :=
  match ev with DestroyProcessGroup => true | _ => false end.

Definition is_build_dataset (ev : Event) : bool :=
  match ev with BuildDataset _ => true | _ => false end.

Definition is_set_dataset (ev : Event) : bool :=
  match ev with SetDataset _ => true | _ => false end.

(** The engine configuration calls of a trace, in order. *)
Definition config_calls (tr : list Event) : list Event := filter is_config tr.

(** The task invocations of a trace, in order. *)
Definition task_calls (tr : list Event) : list Event := filter is_task tr.

(** The invocation of a task with its description as keyword arguments. *)
Definition task_call (t : string * Dict) : Event := TaskCall (fst t) (snd t).

(** The name under which a task invocation looks up the engine method. *)
Definition invoked_name (ev : Event) : string :=
  match ev with
  | TaskCall name _ => name
  | _ => ""
  end.

Definition task_names (tr : list Event) : list string :=
  map invoked_name (task_calls tr).

(** The configuration values a call receives as positional arguments. *)
Definition call_args (ev : Event) : list Value :=
  match ev with
  | BuildModel model_config _ _ => [model_config]
  | Instantiate engine_config _ _ _ => [engine_config]
  | ConfigureDataLoaders data_config section => [data_config; section]
  | ConfigureDataLoadersV2 section
  | ConfigureOptimizers section
  | ConfigureScheduler section
  | ConfigureLoss section => [section]
  | _ => []
  end.

Inductive Phase : Type :=
| Coordinator | Bootstrap | Configure | Perform | Teardown.

(** The part of the launcher in which an event is produced. *)
Definition phase_of (ev : Event) : Phase :=
  match ev with
  | Log (RunningWorker _ _) | Setenv _ _ | InitProcessGroup _ _ _ _
  | BuildModel _ _ _ | Instantiate _ _ _ _ | SetDataset _ => Bootstrap
  | PrintUnknownKind _
  | ConfigureDataLoaders _ _ | ConfigureDataLoadersV2 _
  | ConfigureOptimizers _ | ConfigureScheduler _ | ConfigureLoss _ => Configure
  | TaskCall _ _ => Perform
  | DestroyProcessGroup => Teardown
  | _ => Coordinator
  end.

Definition in_phase (ph : Phase) (ev : Event) : Prop := phase_of ev = ph.

(** ** Observations on the controlling process *)

(** The first statement of each of the three branches on [len(gpu_list)]. *)
Definition is_classification (ev : Event) : bool :=
  match ev with
  | Log GpuListEmpty | Log OneGpu | Log MultipleGpus => true
  | _ => false
  end.


(** The start of a worker: inline, its first statement; spawned, the
    spawn. *)
Definition is_worker_start (ev : Event) : bool :=
  match ev with
  | Log (RunningWorker _ _) | Spawn _ => true
  | _ => false
  end.

(** An event of the output-directory step on path [p]. *)
Definition is_dir_event (p : string) (ev : Event) : Prop :=
  match ev with
  | PathExists q _ | Makedirs q | Log (CreatingDirectory q) => q = p
  | _ => False
  end.

(** An event of the launch after the first statement of its branch. *)
Definition launch_event (ev : Event) : Prop :=
  match ev with
  | Log (AccessibleDevices _) | ConfigureLog | Spawn _ => True
  | _ => phase_of ev <> Coordinator
  end.

(** The rank and device each worker of a trace announces at line 112. *)
Definition announced (tr : list Event) : list (nat * Device) :=
  flat_map (fun ev => match ev with
                      | Log (RunningWorker r d) => [(r, d)]
                      | _ => []
                      end) tr.

(** What an event says about rank and device agrees with the given ones. *)
Definition bound_to (rank : nat) (device : Device) (ev : Event) : Prop :=
  match ev with
  | Log (RunningWorker r d) => r = rank /\ d = device
  | InitProcessGroup _ _ r _ => r = rank
  | BuildModel _ d _ => d = device
  | Instantiate _ _ r d => r = rank /\ d = device
  | _ => True
  end.

(** An event that agrees with rank and device and announces no worker. *)
Definition after_announcement (rank : nat) (device : Device) (ev : Event)
  : Prop :=
  bound_to rank device ev /\ announced [ev] = [].

(** The dataset every worker of the run is given. *)
Definition shared_dataset (w : World) (c : HydraConfig) : option Dataset :=
  if kind c =? "gnn" then Some (built_dataset w) else None.

(** The outcome of spawned worker [i]. *)
Definition worker_outcome (child : nat -> World) (dataset : option Dataset)
    (c : HydraConfig) (files : list string) (i : nat)
  : nat * (list Event * Result unit) :=
  (i, (trace (fst (run i (gpu_list c) dataset c (child i) (init_state files))),
       snd (run i (gpu_list c) dataset c (child i) (init_state files)))).

(** ** Sample inputs *)

Module Sample.

(** A world in which every engine attribute exists and nothing raises. *)
Definition calm_world : World :=
  {| raises := fun _ _ => false;
     hasattr := fun _ => true;
     getcwd := "/outputs/run";
     built_dataset := DatasetObj 1;
     concurrent := fun _ => [] |}.

(** A world in which another launch creates [/dump] right after this one
    has looked for it. *)
Definition racing_world : World :=
  {| raises := fun _ _ => false;
     hasattr := fun _ => true;
     getcwd := "/outputs/run";
     built_dataset := DatasetObj 1;
     concurrent := fun h =>
       match h with
       | [PathExists _ _; Log (CreatingDirectory _)] => ["/dump"]
       | _ => []
       end |}.

(** A world in which the engine's [train] method raises. *)
Definition failing_train_world : World :=
  {| raises := fun _ ev =>
       match ev with
       | TaskCall "train" _ => true
       | _ => false
       end;
     hasattr := fun _ => true;
     getcwd := "/outputs/run";
     built_dataset := DatasetObj 1;
     concurrent := fun _ => [] |}.

Definition train_config : Dict :=
  [("loss", VStr "mse"); ("epochs", VInt 8);
   ("data_loaders", VStr "loaders"); ("optimizers", VStr "adam")].

Definition config (gpus : list nat) (k : string) : HydraConfig :=
  {| gpu_list := gpus;
     dump_path := "/dump";
     kind := k;
     data := VStr "run-level data";
     model := VStr "resnet";
     engine := VStr "classifier";
     tasks := [("train", train_config);
               ("evaluate", [("report", VBool true)])] |}.

(** The same run without any [data_loaders] section. *)
Definition config_without_loaders (gpus : list nat) (k : string) : HydraConfig :=
  {| gpu_list := gpus;
     dump_path := "/dump";
     kind := k;
     data := VStr "run-level data";
     model := VStr "resnet";
     engine := VStr "classifier";
     tasks := [("train", [("optimizers", VStr "adam"); ("epochs", VInt 8)]);
               ("evaluate", [("report", VBool true)])] |}.

End Sample.

(** ** Further observations *)

(** The statements of [ddp_setup] (lines 186-191). *)
Definition is_process_group (ev : Event) : bool :=
  match ev with
  | Setenv _ _ | InitProcessGroup _ _ _ _ => true
  | _ => false
  end.

(** What [ddp_setup rank world_size] does when nothing raises. *)
Definition ddp_events (rank world_size : nat) : list Event :=
  [Setenv "MASTER_ADDR" "localhost";
   Setenv "MASTER_PORT" "12355";
   InitProcessGroup "nccl" "env://" rank world_size].

(** A model built with [use_dpp=True]. *)
Definition uses_ddp (ev : Event) : bool :=
  match ev with
  | BuildModel _ _ use_dpp => use_dpp
  | _ => false
  end.

(** Lines 111-135 when nothing raises: announcement, process group (more
    than one accelerator), model, engine, dataset (kind gnn). *)
Definition bootstrap_events (w : World) (rank : nat) (gpus : list nat)
    (dataset : option Dataset) (c : HydraConfig) : list Event :=
  let device := resolve_device rank gpus in
  [Log (RunningWorker rank device)] ++
  (if multi gpus then ddp_events rank (length gpus) else []) ++
  [BuildModel (model c) device (multi gpus);
   Instantiate (engine c) (getcwd w ++ "/") rank device] ++
  (if kind c =? "gnn" then [SetDataset dataset] else []).

(** An event of the two loops or of the teardown. *)
Definition after_bootstrap (ev : Event) : Prop :=
  phase_of ev = Configure \/ phase_of ev = Perform \/ phase_of ev = Teardown.

Definition set_data (v : Value) (c : HydraConfig) : HydraConfig :=
  {| gpu_list := gpu_list c; dump_path := dump_path c; kind := kind c;
     data := v; model := model c; engine := engine c; tasks := tasks c |}.

Module MoreSamples.

(** A world whose engine has no [evaluate] method. *)
Definition no_evaluate_world : World :=
  {| raises := fun _ _ => false;
     hasattr := fun name => negb (name =? "evaluate");
     getcwd := "/outputs/run";
     built_dataset := DatasetObj 1;
     concurrent := fun _ => [] |}.

(** A world in which [init_process_group] raises. *)
Definition failing_init_world : World :=
  {| raises := fun _ ev =>
       match ev with
       | InitProcessGroup _ _ _ _ => true
       | _ => false
       end;
     hasattr := fun _ => true;
     getcwd := "/outputs/run";
     built_dataset := DatasetObj 1;
     concurrent := fun _ => [] |}.

(** A run whose first task has no [data_loaders] section and whose second
    task has one. *)
Definition late_loaders_config (k : string) : HydraConfig :=
  {| gpu_list := [];
     dump_path := "/dump";
     kind := k;
     data := VStr "run-level data";
     model := VStr "resnet";
     engine := VStr "classifier";
     tasks := [("train", [("optimizers", VStr "adam"); ("epochs", VInt 8)]);
               ("evaluate", [("loss", VStr "mse");
                             ("data_loaders", VStr "loaders")])] |}.

End MoreSamples.

(** * Properties *)

(** ** Lists *)

Lemma prefix_refl {A} (l : list A) : prefix l l.
Proof. exists []. now rewrite app_nil_r. Qed.

Lemma prefix_nil {A} (l : list A) : prefix [] l.
Proof. now exists l. Qed.

Lemma prefix_app {A} (l l1 l2 : list A) :
  prefix l1 l2 -> prefix (l ++ l1) (l ++ l2).
Proof. intros [r ->]. exists r. now rewrite app_assoc. Qed.

Lemma prefix_app_r {A} (l1 l2 l : list A) : prefix l1 l2 -> prefix l1 (l2 ++ l).
Proof. intros [r ->]. exists (r ++ l). now rewrite app_assoc. Qed.

Lemma prefix_firstn {A} (n : nat) (l : list A) : prefix (firstn n l) l.
Proof. exists (skipn n l). now rewrite firstn_skipn. Qed.

Lemma prefix_filter {A} (f : A -> bool) (l1 l2 : list A) :
  prefix l1 l2 -> prefix (filter f l1) (filter f l2).
Proof. intros [l ->]. exists (filter f l). apply filter_app. Qed.

Lemma prefix_map {A B} (f : A -> B) (l1 l2 : list A) :
  prefix l1 l2 -> prefix (map f l1) (map f l2).
Proof. intros [l ->]. exists (map f l). apply map_app. Qed.

Lemma Forall_prefix {A} (P : A -> Prop) (l1 l2 : list A) :
  prefix l1 l2 -> Forall P l2 -> Forall P l1.
Proof. intros [l ->] H. now apply Forall_app in H. Qed.

Lemma filter_none {A} (f : A -> bool) (l : list A) :
  Forall (fun x => f x = false) l -> filter f l = [].
Proof.
  induction 1 as [|x l Hx _ IH]; simpl; [reflexivity|]. now rewrite Hx.
Qed.

Lemma filter_all {A} (f : A -> bool) (l : list A) :
  Forall (fun x => f x = true) l -> filter f l = l.
Proof.
  induction 1 as [|x l Hx _ IH]; simpl; [reflexivity|]. now rewrite Hx, IH.
Qed.

Lemma filter_twice {A} (f g : A -> bool) (l : list A) :
  filter f (filter g l) = filter (fun x => g x && f x) l.
Proof.
  induction l as [|x l IH]; [reflexivity|].
  cbn [filter]. destruct (g x); cbn [andb filter]; now rewrite IH.
Qed.

Lemma existsb_split {A} (f : A -> bool) (l : list A) :
  existsb f l = true ->
  exists l1 x l2, l = l1 ++ x :: l2 /\ existsb f l1 = false /\ f x = true.
Proof.
  induction l as [|a l IH]; simpl; [discriminate|].
  destruct (f a) eqn:Ea; simpl.
  - intros _. exists [], a, l. auto.
  - intros H. destruct (IH H) as (l1 & x & l2 & -> & H1 & Hx).
    exists (a :: l1), x, l2. simpl. rewrite Ea. auto.
Qed.

Lemma mem_app p l1 l2 : mem p (l1 ++ l2) = mem p l1 || mem p l2.
Proof. apply existsb_app. Qed.

Lemma mem_last p l : mem p (l ++ [p]) = true.
Proof. rewrite mem_app. simpl. now rewrite String.eqb_refl, orb_true_r. Qed.

(** ** Dictionaries *)

Lemma dict_contains_get (k : string) (d : Dict) :
  dict_contains k d = match dict_get k d with Some _ => true | None => false end.
Proof.
  unfold dict_contains, dict_get.
  induction d as [|kv d IH]; simpl; [reflexivity|].
  destruct (has_key k kv); simpl; [reflexivity | exact IH].
Qed.

Lemma dict_get_remove_other (k k' : string) (d : Dict) :
  k <> k' -> dict_get k (dict_remove k' d) = dict_get k d.
Proof.
  intros Hne. unfold dict_get, dict_remove.
  induction d as [|kv d IH]; simpl; [reflexivity|].
  destruct (has_key k' kv) eqn:E'; destruct (has_key k kv) eqn:E; simpl;
    rewrite ?E; try assumption; try reflexivity.
  unfold has_key in E, E'.
  apply String.eqb_eq in E, E'. congruence.
Qed.

Lemma dict_get_remove_same (k : string) (d : Dict) :
  dict_get k (dict_remove k d) = None.
Proof.
  unfold dict_get, dict_remove.
  induction d as [|kv d IH]; simpl; [reflexivity|].
  destruct (has_key k kv) eqn:E; simpl; [exact IH|].
  rewrite E. exact IH.
Qed.

Lemma dict_remove_absent (k : string) (d : Dict) :
  dict_get k d = None -> dict_remove k d = d.
Proof.
  unfold dict_get, dict_remove.
  induction d as [|kv d IH]; simpl; [reflexivity|].
  destruct (has_key k kv); simpl; [discriminate|].
  intros H. now rewrite IH.
Qed.

Lemma has_key_eq k kv : has_key k kv = true -> fst kv = k.
Proof. unfold has_key. apply String.eqb_eq. Qed.

(** Reading a key does not depend on the order in which the keys of a
    mapping were written. *)
Lemma dict_get_perm (k : string) (d d' : Dict) :
  NoDup (map fst d) -> Permutation d d' -> dict_get k d' = dict_get k d.
Proof.
  intros Hnd Hp. induction Hp as [|x l l' Hp IH|x y l|l l' l'' Hp1 IH1 Hp2 IH2].
  - reflexivity.
  - inversion Hnd; subst. unfold dict_get in *. simpl.
    destruct (has_key k x); [reflexivity | now apply IH].
  - unfold dict_get. simpl.
    destruct (has_key k x) eqn:Ex, (has_key k y) eqn:Ey; try reflexivity.
    apply has_key_eq in Ex, Ey. inversion Hnd as [|a m Hnin _]; subst.
    exfalso. apply Hnin. simpl. left. congruence.
  - rewrite IH2, IH1; auto.
    eapply Permutation_NoDup; [|exact Hnd]. now apply Permutation_map.
Qed.

Lemma dict_get_strip (k : string) (task_config : Dict) :
  dict_get k (strip task_config) =
  if is_recognized k then None else dict_get k task_config.
Proof.
  unfold strip, is_recognized, recognized. simpl.
  destruct (String.eqb_spec k "data_loaders") as [->|H1]; simpl.
  { rewrite !dict_get_remove_other by discriminate. apply dict_get_remove_same. }
  destruct (String.eqb_spec k "optimizers") as [->|H2]; simpl.
  { rewrite !dict_get_remove_other by discriminate. apply dict_get_remove_same. }
  destruct (String.eqb_spec k "scheduler") as [->|H3]; simpl.
  { rewrite !dict_get_remove_other by discriminate. apply dict_get_remove_same. }
  destruct (String.eqb_spec k "loss") as [->|H4]; simpl.
  { apply dict_get_remove_same. }
  now rewrite !dict_get_remove_other by assumption.
Qed.

(** What is left of a description: its entries under other keys, in their
    original order. *)
Lemma strip_filter (task_config : Dict) :
  strip task_config =
  filter (fun kv => negb (is_recognized (fst kv))) task_config.
Proof.
  unfold strip, dict_remove. rewrite !filter_twice.
  apply filter_ext. intros [k v].
  unfold has_key, is_recognized, recognized. cbn [existsb fst].
  rewrite !(String.eqb_sym k).
  destruct ("data_loaders" =? k), ("optimizers" =? k), ("scheduler" =? k),
    ("loss" =? k); reflexivity.
Qed.

Lemma strip_strip task_config : strip (strip task_config) = strip task_config.
Proof.
  unfold strip at 1.
  rewrite (dict_remove_absent "data_loaders") by now rewrite dict_get_strip.
  rewrite (dict_remove_absent "optimizers") by now rewrite dict_get_strip.
  rewrite (dict_remove_absent "scheduler") by now rewrite dict_get_strip.
  rewrite (dict_remove_absent "loss") by now rewrite dict_get_strip.
  reflexivity.
Qed.

Lemma map_strip_strip ts : map strip_task (map strip_task ts) = map strip_task ts.
Proof.
  rewrite map_map. apply map_ext. intros [n d]. unfold strip_task; simpl.
  now rewrite strip_strip.
Qed.

(** ** Straight-line programs *)

Lemma extend_nil st : extend st [] = st.
Proof. destruct st; unfold extend; simpl. now rewrite app_nil_r. Qed.

Lemma extend_extend st a b : extend (extend st a) b = extend st (a ++ b).
Proof. unfold extend; simpl. now rewrite app_assoc. Qed.

Lemma record_extend ev st : record ev st = extend st [ev].
Proof. reflexivity. Qed.

Lemma step_events_app p q : step_events (p ++ q) = step_events p ++ step_events q.
Proof. apply flat_map_app. Qed.

Lemma step_events_calls l : step_events (map SCall l) = l.
Proof. induction l as [|ev l IH]; simpl; [reflexivity|]. now rewrite IH. Qed.

Lemma no_raise_calls l : existsb is_raise (map SCall l) = false.
Proof. induction l as [|ev l IH]; simpl; [reflexivity | exact IH]. Qed.

Lemma no_raise_not_in p e : existsb is_raise p = false -> ~ In (SRaise e) p.
Proof.
  intros H Hin.
  assert (E : existsb is_raise p = true).
  { apply existsb_exists. now exists (SRaise e). }
  congruence.
Qed.

Lemma exec_outcome (p : list Step) (w : World) (st : State) :
  exec p w st =
  (extend st (fst (outcome w (trace st) p)), snd (outcome w (trace st) p)).
Proof.
  revert st. induction p as [|s p IH]; intros st; simpl.
  - unfold ret. now rewrite extend_nil.
  - destruct s as [ev|ev|e]; simpl.
    + unfold bind, emit. rewrite IH, record_extend, extend_extend.
      change (trace (extend st [ev])) with (trace st ++ [ev]).
      now destruct (outcome w (trace st ++ [ev]) p) as [evs r].
    + unfold bind, call.
      destruct (raises w (trace st) ev); simpl; [reflexivity|].
      rewrite IH, record_extend, extend_extend.
      change (trace (extend st [ev])) with (trace st ++ [ev]).
      now destruct (outcome w (trace st ++ [ev]) p) as [evs r].
    + unfold raise. now rewrite extend_nil.
Qed.

Lemma exec_app (p q : list Step) (w : World) (st : State) :
  exec (p ++ q) w st = (exec p ;; exec q) w st.
Proof.
  revert st. induction p as [|s p IH]; intros st; simpl.
  - reflexivity.
  - destruct s as [ev|ev|e]; simpl; unfold bind in *; simpl.
    + apply IH.
    + destruct (raises w (trace st) ev); [reflexivity | apply IH].
    + reflexivity.
Qed.

Lemma outcome_app (w : World) (h : list Event) (p q : list Step) :
  outcome w h (p ++ q) =
  match outcome w h p with
  | (e1, Ok _) => let '(e2, r) := outcome w (h ++ e1) q in (e1 ++ e2, r)
  | (e1, Raise e) => (e1, Raise e)
  end.
Proof.
  revert h. induction p as [|s p IH]; intros h; simpl.
  - rewrite app_nil_r. now destruct (outcome w h q).
  - destruct s as [ev|ev|e]; simpl.
    + rewrite IH. destruct (outcome w (h ++ [ev]) p) as [e1 [[]|e]]; simpl.
      * rewrite <- app_assoc. simpl.
        now destruct (outcome w (h ++ ev :: e1) q).
      * reflexivity.
    + destruct (raises w h ev); [reflexivity|].
      rewrite IH. destruct (outcome w (h ++ [ev]) p) as [e1 [[]|e]]; simpl.
      * rewrite <- app_assoc. simpl.
        now destruct (outcome w (h ++ ev :: e1) q).
      * reflexivity.
    + reflexivity.
Qed.

(** A run is a prefix of the program; a completed run is all of it. *)
Lemma outcome_prefix (w : World) (h : list Event) (p : list Step) :
  exists n, fst (outcome w h p) = step_events (firstn n p).
Proof.
  revert h. induction p as [|s p IH]; intros h; simpl.
  - exists 0. reflexivity.
  - destruct s as [ev|ev|e]; simpl.
    + destruct (IH (h ++ [ev])) as [n Hn].
      destruct (outcome w (h ++ [ev]) p) as [evs r]; simpl in *.
      exists (S n). simpl. now rewrite Hn.
    + destruct (raises w h ev).
      * exists 1. reflexivity.
      * destruct (IH (h ++ [ev])) as [n Hn].
        destruct (outcome w (h ++ [ev]) p) as [evs r]; simpl in *.
        exists (S n). simpl. now rewrite Hn.
    + exists 0. reflexivity.
Qed.

Lemma outcome_is_prefix w h p : prefix (fst (outcome w h p)) (step_events p).
Proof.
  destruct (outcome_prefix w h p) as [n ->].
  rewrite <- (firstn_skipn n p) at 2. rewrite step_events_app.
  now exists (step_events (skipn n p)).
Qed.

Lemma outcome_ok (w : World) (h : list Event) (p : list Step) (u : unit) :
  snd (outcome w h p) = Ok u ->
  fst (outcome w h p) = step_events p /\ existsb is_raise p = false.
Proof.
  revert h. induction p as [|s p IH]; intros h; simpl.
  - intros _. split; reflexivity.
  - destruct s as [ev|ev|e]; simpl.
    + specialize (IH (h ++ [ev])).
      destruct (outcome w (h ++ [ev]) p) as [evs r]; simpl in *.
      intros H. destruct (IH H) as [-> ->]. split; reflexivity.
    + destruct (raises w h ev); [discriminate|].
      specialize (IH (h ++ [ev])).
      destruct (outcome w (h ++ [ev]) p) as [evs r]; simpl in *.
      intros H. destruct (IH H) as [-> ->]. split; reflexivity.
    + discriminate.
Qed.

Lemma outcome_ok_eq w h p evs :
  outcome w h p = (evs, Ok tt) ->
  evs = step_events p /\ existsb is_raise p = false.
Proof.
  intros E. pose proof (@outcome_ok w h p tt) as H. rewrite E in H.
  exact (H eq_refl).
Qed.

(** What a run that raises ends with: the collaborator call that raised, or
    a [raise] statement of the launcher. *)
Lemma outcome_raise (w : World) (h : list Event) (p : list Step) (e : Exn) :
  snd (outcome w h p) = Raise e ->
  (exists evs ev, fst (outcome w h p) = evs ++ [ev] /\ e = Raised ev /\
                  In (SCall ev) p) \/
  In (SRaise e) p.
Proof.
  revert h. induction p as [|s p IH]; intros h; simpl.
  - discriminate.
  - destruct s as [ev|ev|e']; simpl.
    + specialize (IH (h ++ [ev])).
      destruct (outcome w (h ++ [ev]) p) as [evs r]; simpl in *.
      intros H. destruct (IH H) as [(evs' & ev' & -> & -> & Hin)|Hin].
      * left. exists (ev :: evs'), ev'. auto.
      * right. auto.
    + destruct (raises w h ev).
      * simpl. intros [= <-]. left. exists [], ev. auto.
      * specialize (IH (h ++ [ev])).
        destruct (outcome w (h ++ [ev]) p) as [evs r]; simpl in *.
        intros H. destruct (IH H) as [(evs' & ev' & -> & -> & Hin)|Hin].
        -- left. exists (ev :: evs'), ev'. auto.
        -- right. auto.
    + intros [= <-]. right. auto.
Qed.

Lemma outcome_quiet (w : World) (h : list Event) (p : list Step) :
  quiet w -> existsb is_raise p = false ->
  outcome w h p = (step_events p, Ok tt).
Proof.
  intros Hq. revert h. induction p as [|s p IH]; intros h; simpl.
  - reflexivity.
  - destruct s as [ev|ev|e]; simpl; intros Hr.
    + now rewrite IH.
    + rewrite Hq. now rewrite IH.
    + discriminate.
Qed.

(** In a world where no collaborator raises, a program runs up to its
    first [raise] statement. *)
Lemma outcome_quiet_raise w h p e q :
  quiet w -> existsb is_raise p = false ->
  outcome w h (p ++ SRaise e :: q) = (step_events p, Raise e).
Proof.
  intros Hq Hp. rewrite outcome_app, (outcome_quiet h p Hq Hp). simpl.
  now rewrite app_nil_r.
Qed.

(** Whatever a run produces satisfies what all events of its program
    satisfy. *)
Lemma outcome_Forall (P : Event -> Prop) w h p :
  Forall P (step_events p) -> Forall P (fst (outcome w h p)).
Proof.
  revert h. induction p as [|s p IH]; intros h; simpl; [constructor|].
  destruct s as [ev|ev|e]; simpl; intros HP.
  - inversion HP as [|x l Hx Hl]; subst. specialize (IH (h ++ [ev]) Hl).
    destruct (outcome w (h ++ [ev]) p) as [evs r]; simpl in *.
    now constructor.
  - inversion HP as [|x l Hx Hl]; subst. destruct (raises w h ev).
    + simpl. auto.
    + specialize (IH (h ++ [ev]) Hl).
      destruct (outcome w (h ++ [ev]) p) as [evs r]; simpl in *.
      now constructor.
  - constructor.
Qed.

Lemma implements_ret {A} w (a : A) : implements w (ret a) [] a.
Proof. intros st. reflexivity. Qed.

Lemma implements_emit w ev : implements w (emit ev) [SEmit ev] tt.
Proof. intros st. reflexivity. Qed.

Lemma implements_call w ev : implements w (call ev) [SCall ev] tt.
Proof.
  intros st. unfold bind, call; simpl. unfold bind, call, ret.
  now destruct (raises w (trace st) ev).
Qed.

Lemma implements_bind {A B} w (c : M A) (k : A -> M B) p q a b :
  implements w c p a -> implements w (k a) q b ->
  implements w (bind c k) (p ++ q) b.
Proof.
  intros Hc Hk st. unfold bind. rewrite Hc, exec_app. unfold bind.
  destruct (exec p w st) as [st1 [[]|e]]; simpl; [|reflexivity].
  rewrite Hk. reflexivity.
Qed.

Lemma implements_when w (b : bool) c p :
  implements w c p tt -> implements w (when b c) (if b then p else []) tt.
Proof. intros H. destruct b; [exact H | apply implements_ret]. Qed.

Lemma implements_run_state {A} w (c : M A) p a st :
  implements w c p a ->
  fst (c w st) = extend st (fst (outcome w (trace st) p)) /\
  snd (c w st) = match snd (outcome w (trace st) p) with
                 | Ok _ => Ok a
                 | Raise e => Raise e
                 end.
Proof.
  intros Hc. rewrite Hc. unfold bind. rewrite exec_outcome.
  destruct (outcome w (trace st) p) as [evs [[]|e]]; simpl; split; reflexivity.
Qed.

(** ** The worker is a straight-line program *)

Lemma implements_configure_section w key method task_config :
  implements w (configure_section key method task_config)
    (map SCall (section_call method (dict_get key task_config)))
    (dict_remove key task_config).
Proof.
  intros st. unfold configure_section, pop.
  rewrite dict_contains_get.
  destruct (dict_get key task_config) as [v|] eqn:E; simpl.
  - unfold bind, ret, call. now destruct (raises w (trace st) (method v)).
  - unfold bind, ret. now rewrite dict_remove_absent.
Qed.

Lemma implements_configure_data_loaders w c task_config :
  implements w (configure_data_loaders_section c task_config)
    (if blocked c task_config then
       [SEmit (PrintUnknownKind (kind c)); SRaise ValueError]
     else map SCall (section_call (data_loaders_call c)
                       (dict_get "data_loaders" task_config)))
    (dict_remove "data_loaders" task_config).
Proof.
  intros st.
  unfold configure_data_loaders_section, blocked, known_kind, data_loaders_call, pop.
  rewrite dict_contains_get.
  destruct (dict_get "data_loaders" task_config) as [v|] eqn:E; simpl.
  - destruct (kind c =? "cnn"); simpl.
    + unfold bind, ret, call. now destruct (raises w (trace st) _).
    + destruct (kind c =? "gnn"); simpl.
      * unfold bind, ret, call. now destruct (raises w (trace st) _).
      * reflexivity.
  - unfold bind, ret. now rewrite dict_remove_absent.
Qed.

Lemma implements_configure_task_seq w c task_config :
  implements w (configure_task c task_config)
    (configure_task_steps_seq c task_config) (strip task_config).
Proof.
  unfold configure_task, configure_task_steps_seq, strip.
  eapply implements_bind; [apply implements_configure_data_loaders|].
  eapply implements_bind; [apply implements_configure_section|].
  eapply implements_bind; [apply implements_configure_section|].
  apply implements_configure_section.
Qed.

(** Removing one section does not change what the tests of the later
    sections see. *)
Lemma configure_task_steps_seq_free c task_config :
  blocked c task_config = false ->
  configure_task_steps_seq c task_config = map SCall (section_calls c task_config).
Proof.
  intros Hb. unfold configure_task_steps_seq, section_calls. rewrite Hb.
  rewrite !dict_get_remove_other by discriminate.
  now rewrite !map_app.
Qed.

Lemma implements_configure_task w c task_config :
  implements w (configure_task c task_config)
    (configure_task_steps c task_config) (strip task_config).
Proof.
  pose proof (implements_configure_task_seq w c task_config) as H.
  unfold configure_task_steps.
  destruct (blocked c task_config) eqn:Hb.
  - intros st. rewrite (H st). unfold configure_task_steps_seq. rewrite Hb.
    reflexivity.
  - now rewrite <- configure_task_steps_seq_free.
Qed.

Lemma implements_configure_tasks w c ts :
  implements w (configure_tasks c ts) (configure_steps c ts) (map strip_task ts).
Proof.
  unfold configure_tasks, configure_steps.
  induction ts as [|t ts IH]; simpl.
  - apply implements_ret.
  - eapply implements_bind.
    + rewrite <- (app_nil_r (configure_task_steps c (snd t))).
      eapply implements_bind; [apply implements_configure_task|].
      apply implements_ret.
    + rewrite <- (app_nil_r (flat_map _ ts)).
      eapply implements_bind; [exact IH|].
      apply implements_ret.
Qed.

Lemma implements_call_task w name kwargs :
  implements w (call_task name kwargs) (perform_task_steps w (name, kwargs)) tt.
Proof.
  intros st. unfold call_task, perform_task_steps; simpl.
  destruct (hasattr w name).
  - apply implements_call.
  - reflexivity.
Qed.

Lemma implements_perform_tasks w ts :
  implements w (perform_tasks ts) (perform_steps w ts) tt.
Proof.
  unfold perform_tasks, perform_steps.
  induction ts as [|[name kwargs] ts IH]; simpl.
  - apply implements_ret.
  - eapply implements_bind; [apply implements_call_task | exact IH].
Qed.

Lemma implements_run w rank gpus dataset c :
  implements w (run rank gpus dataset c) (run_steps w rank gpus dataset c) tt.
Proof.
  unfold run, run_steps, bootstrap_steps, teardown_steps.
  fold (multi gpus).
  rewrite <- !app_assoc.
  eapply implements_bind; [apply implements_emit|].
  eapply implements_bind.
  { apply implements_when with
      (p := [SEmit (Setenv "MASTER_ADDR" "localhost");
             SEmit (Setenv "MASTER_PORT" "12355");
             SCall (InitProcessGroup "nccl" "env://" rank (length gpus))]).
    unfold ddp_setup.
    eapply implements_bind with (p := [_]); [apply implements_emit|].
    eapply implements_bind with (p := [_]); [apply implements_emit|].
    apply implements_call. }
  eapply implements_bind with (p := [_]); [apply implements_call|].
  eapply implements_bind with (p := []).
  { intros st. reflexivity. }
  eapply implements_bind with (p := [_]); [apply implements_call|].
  eapply implements_bind.
  { apply implements_when. apply implements_call. }
  eapply implements_bind; [apply implements_configure_tasks|].
  eapply implements_bind; [apply implements_perform_tasks|].
  apply implements_when. apply implements_call.
Qed.

(** What a worker does: the events of its program up to the first statement
    that raises. *)
Lemma run_outcome w rank gpus dataset c st :
  run rank gpus dataset c w st =
  (extend st (fst (outcome w (trace st) (run_steps w rank gpus dataset c))),
   snd (outcome w (trace st) (run_steps w rank gpus dataset c))).
Proof.
  destruct (implements_run_state st (implements_run w rank gpus dataset c))
    as [H1 H2].
  rewrite (surjective_pairing (run rank gpus dataset c w st)), H1, H2.
  now destruct (snd (outcome w (trace st) (run_steps w rank gpus dataset c)))
    as [[]|e].
Qed.

(** ** The statements of a worker *)

Lemma section_calls_perm c (d d' : Dict) :
  NoDup (map fst d) -> Permutation d d' -> section_calls c d' = section_calls c d.
Proof.
  intros Hnd Hp. unfold section_calls.
  now rewrite !(dict_get_perm _ Hnd Hp).
Qed.

Lemma section_calls_strip c task_config : section_calls c (strip task_config) = [].
Proof. unfold section_calls. now rewrite !dict_get_strip. Qed.

Lemma blocked_strip c task_config : blocked c (strip task_config) = false.
Proof.
  unfold blocked. rewrite dict_contains_get, dict_get_strip. reflexivity.
Qed.

Lemma configure_steps_strip c ts : configure_steps c (map strip_task ts) = [].
Proof.
  unfold configure_steps.
  induction ts as [|t ts IH]; simpl; [reflexivity|].
  unfold configure_task_steps at 1.
  now rewrite blocked_strip, section_calls_strip.
Qed.

Section WorkerPhases.

Variable w : World.
Variable c : HydraConfig.

Lemma section_call_config method section :
  (forall v, is_config (method v) = true) ->
  Forall (fun ev => is_config ev = true) (section_call method section).
Proof. intros H. destruct section; simpl; auto. Qed.

Lemma section_calls_config task_config :
  Forall (fun ev => is_config ev = true) (section_calls c task_config).
Proof.
  unfold section_calls.
  rewrite !Forall_app. repeat split; apply section_call_config; try reflexivity.
  intros v. unfold data_loaders_call. now destruct (kind c =? "cnn").
Qed.

Lemma all_section_calls_config ts :
  Forall (fun ev => is_config ev = true) (all_section_calls c ts).
Proof.
  induction ts as [|t ts IH]; simpl; [constructor|].
  apply Forall_app. split; [apply section_calls_config | exact IH].
Qed.

Lemma config_calls_section_calls ts :
  config_calls (all_section_calls c ts) = all_section_calls c ts.
Proof. apply filter_all, all_section_calls_config. Qed.

Lemma configure_steps_phase ts :
  Forall (in_phase Configure) (step_events (configure_steps c ts)).
Proof.
  induction ts as [|t ts IH]; simpl; [constructor|].
  unfold configure_steps in *.
  rewrite step_events_app. apply Forall_app. split; [|exact IH].
  unfold configure_task_steps. destruct (blocked c (snd t)).
  - repeat constructor.
  - rewrite step_events_calls.
    eapply Forall_impl; [|apply section_calls_config].
    intros ev. now destruct ev.
Qed.

Lemma configure_steps_raise ts :
  existsb is_raise (configure_steps c ts) =
  existsb (fun t => blocked c (snd t)) ts.
Proof.
  unfold configure_steps.
  induction ts as [|t ts IH]; simpl; [reflexivity|].
  rewrite existsb_app, IH. unfold configure_task_steps.
  destruct (blocked c (snd t)); simpl; [reflexivity|].
  now rewrite no_raise_calls.
Qed.

Lemma configure_steps_complete ts :
  existsb is_raise (configure_steps c ts) = false ->
  configure_steps c ts = map SCall (all_section_calls c ts).
Proof.
  unfold configure_steps, all_section_calls.
  induction ts as [|t ts IH]; simpl; [reflexivity|].
  rewrite existsb_app, map_app. unfold configure_task_steps at 1 3.
  destruct (blocked c (snd t)); simpl; [discriminate|].
  rewrite no_raise_calls. simpl. intros H. now rewrite IH.
Qed.

Lemma configure_steps_known ts :
  known_kind c = true ->
  configure_steps c ts = map SCall (all_section_calls c ts).
Proof.
  intros Hk. unfold configure_steps, all_section_calls.
  induction ts as [|t ts IH]; simpl; [reflexivity|].
  rewrite map_app, IH. unfold configure_task_steps, blocked.
  now rewrite Hk, andb_false_r.
Qed.

(** However the first loop ends, the configuration calls made are an
    initial part of those the task list asks for, task by task. *)
Lemma configure_outcome_prefix ts h :
  prefix (config_calls (fst (outcome w h (configure_steps c ts))))
         (all_section_calls c ts).
Proof.
  revert h. induction ts as [|t ts IH]; intros h.
  - apply prefix_nil.
  - change (configure_steps c (t :: ts))
      with (configure_task_steps c (snd t) ++ configure_steps c ts).
    change (all_section_calls c (t :: ts))
      with (section_calls c (snd t) ++ all_section_calls c ts).
    rewrite outcome_app.
    unfold configure_task_steps. destruct (blocked c (snd t)).
    + simpl. apply prefix_nil.
    + destruct (outcome w h (map SCall (section_calls c (snd t))))
        as [e1 [[]|e]] eqn:E.
      * pose proof (@outcome_ok w h (map SCall (section_calls c (snd t))) tt) as Hok.
        rewrite E in Hok. destruct (Hok eq_refl) as [He1 _]. simpl in He1.
        rewrite step_events_calls in He1. subst e1.
        specialize (IH (h ++ section_calls c (snd t))).
        destruct (outcome w (h ++ section_calls c (snd t)) (configure_steps c ts))
          as [e2 r]. simpl in *.
        unfold config_calls in *. rewrite filter_app.
        rewrite (filter_all _ (section_calls_config (snd t))).
        now apply prefix_app.
      * simpl.
        destruct (outcome_prefix w h (map SCall (section_calls c (snd t))))
          as [n Hn].
        rewrite E in Hn. simpl in Hn. rewrite firstn_map in Hn.
        rewrite step_events_calls in Hn. subst e1.
        apply prefix_app_r. unfold config_calls. rewrite filter_all.
        -- apply prefix_firstn.
        -- apply Forall_forall. intros ev Hin.
           pose proof (section_calls_config (snd t)) as HF.
           rewrite Forall_forall in HF. apply HF.
           rewrite <- (firstn_skipn n (section_calls c (snd t))).
           apply in_or_app. now left.
Qed.

Lemma perform_steps_phase ts :
  Forall (in_phase Perform) (step_events (perform_steps w ts)).
Proof.
  induction ts as [|t ts IH]; simpl; [constructor|].
  unfold perform_steps in *. rewrite step_events_app.
  apply Forall_app. split; [|exact IH].
  unfold perform_task_steps. destruct (hasattr w (fst t)); repeat constructor.
Qed.

Lemma perform_steps_complete ts :
  existsb is_raise (perform_steps w ts) = false ->
  perform_steps w ts = map SCall (map task_call ts).
Proof.
  unfold perform_steps.
  induction ts as [|t ts IH]; simpl; [reflexivity|].
  unfold perform_task_steps at 1 3.
  destruct (hasattr w (fst t)); simpl; [|discriminate].
  intros H. now rewrite IH.
Qed.

Lemma perform_steps_available ts :
  (forall t, In t ts -> hasattr w (fst t) = true) ->
  perform_steps w ts = map SCall (map task_call ts).
Proof.
  unfold perform_steps.
  induction ts as [|t ts IH]; simpl; [reflexivity|]. intros H.
  unfold perform_task_steps at 1. rewrite (H t) by now left.
  simpl. rewrite IH; [reflexivity|]. intros t' Ht'. apply H. now right.
Qed.

(** However the second loop ends, the tasks invoked are an initial part of
    the task list. *)
Lemma perform_outcome_prefix ts h :
  prefix (fst (outcome w h (perform_steps w ts))) (map task_call ts).
Proof.
  revert h. induction ts as [|t ts IH]; intros h; simpl.
  - apply prefix_nil.
  - unfold perform_steps in *. simpl.
    unfold perform_task_steps at 1. destruct (hasattr w (fst t)); simpl.
    + fold (task_call t). destruct (raises w h (task_call t)).
      * simpl. exists (map task_call ts). reflexivity.
      * specialize (IH (h ++ [task_call t])).
        destruct (outcome w (h ++ [task_call t])
                    (flat_map (perform_task_steps w) ts)) as [e r].
        simpl in *. now apply (prefix_app [task_call t]).
    + apply prefix_nil.
Qed.

End WorkerPhases.

Lemma configure_task_steps_no_loaders c c' d :
  dict_contains "data_loaders" d = false ->
  configure_task_steps c d = configure_task_steps c' d.
Proof.
  intros H. unfold configure_task_steps, blocked, section_calls. rewrite H.
  rewrite dict_contains_get in H.
  now destruct (dict_get "data_loaders" d).
Qed.

Lemma configure_steps_no_loaders c c' ts :
  no_data_loaders ts -> configure_steps c ts = configure_steps c' ts.
Proof.
  unfold configure_steps.
  induction ts as [|t ts IH]; intros H; [reflexivity|]. cbn [flat_map].
  rewrite (configure_task_steps_no_loaders c c') by (apply H; now left).
  rewrite IH; [reflexivity|]. intros t' Ht'. apply H. now right.
Qed.

Lemma configure_steps_no_loaders_no_raise c ts :
  no_data_loaders ts -> existsb is_raise (configure_steps c ts) = false.
Proof.
  intros H. rewrite configure_steps_raise.
  destruct (existsb _ ts) eqn:E; [|reflexivity].
  apply existsb_exists in E. destruct E as (t & Hin & Hb).
  unfold blocked in Hb. rewrite (H t Hin) in Hb. discriminate.
Qed.

Lemma perform_steps_raise w ts e :
  In (SRaise e) (perform_steps w ts) -> exists name, e = AttributeError name.
Proof.
  unfold perform_steps. intros Hin. apply in_flat_map in Hin.
  destruct Hin as (t & _ & Hin). unfold perform_task_steps in Hin.
  destruct (hasattr w (fst t)); destruct Hin as [Hin|[]]; [discriminate|].
  injection Hin as <-. now exists (fst t).
Qed.

Lemma bootstrap_no_raise w rank gpus dataset c :
  existsb is_raise (bootstrap_steps w rank gpus dataset c) = false.
Proof.
  unfold bootstrap_steps. destruct (multi gpus), (kind c =? "gnn"); reflexivity.
Qed.

Lemma bootstrap_steps_phase w rank gpus dataset c :
  Forall (in_phase Bootstrap)
         (step_events (bootstrap_steps w rank gpus dataset c)).
Proof.
  unfold bootstrap_steps.
  destruct (multi gpus), (kind c =? "gnn"); repeat constructor.
Qed.

Lemma teardown_steps_phase gpus :
  Forall (in_phase Teardown) (step_events (teardown_steps gpus)).
Proof. unfold teardown_steps. destruct (multi gpus); repeat constructor. Qed.

Lemma invocations_phase ts : Forall (in_phase Perform) (map task_call ts).
Proof.
  apply Forall_forall. intros ev Hin.
  apply in_map_iff in Hin. now destruct Hin as (t & <- & _).
Qed.

Lemma run_steps_worker w rank gpus dataset c :
  Forall (fun ev => phase_of ev <> Coordinator)
         (step_events (run_steps w rank gpus dataset c)).
Proof.
  unfold run_steps. rewrite !step_events_app, !Forall_app.
  repeat split.
  - eapply Forall_impl; [|apply bootstrap_steps_phase].
    unfold in_phase. intros ev ->. discriminate.
  - eapply Forall_impl; [|apply configure_steps_phase].
    unfold in_phase. intros ev ->. discriminate.
  - eapply Forall_impl; [|apply perform_steps_phase].
    unfold in_phase. intros ev ->. discriminate.
  - eapply Forall_impl; [|apply teardown_steps_phase].
    unfold in_phase. intros ev ->. discriminate.
Qed.

Lemma run_steps_unknown_kind w rank gpus dataset c :
  known_kind c = false -> no_data_loaders (tasks c) ->
  run_steps w rank gpus dataset c =
  run_steps w rank gpus dataset (set_kind "cnn" c).
Proof.
  intros Hk Hnl. unfold run_steps, bootstrap_steps. cbn [set_kind model engine tasks kind].
  rewrite (configure_steps_no_loaders c (set_kind "cnn" c) Hnl).
  unfold known_kind in Hk. apply orb_false_iff in Hk. destruct Hk as [_ ->].
  reflexivity.
Qed.

(** ** Phases and filters *)

Lemma filter_phase (f : Event -> bool) (ph : Phase) (l : list Event) :
  (forall ev, phase_of ev = ph -> f ev = false) ->
  Forall (in_phase ph) l -> filter f l = [].
Proof.
  intros Hf Hl. apply filter_none. eapply Forall_impl; [|exact Hl].
  intros ev. apply Hf.
Qed.

Lemma task_calls_phase (ph : Phase) (l : list Event) :
  ph <> Perform -> Forall (in_phase ph) l -> task_calls l = [].
Proof.
  intros Hne. apply filter_phase. intros ev <-. destruct ev; try reflexivity.
  now contradiction Hne.
Qed.

Lemma config_calls_phase (ph : Phase) (l : list Event) :
  ph <> Configure -> Forall (in_phase ph) l -> config_calls l = [].
Proof.
  intros Hne. apply filter_phase. intros ev <-. destruct ev; try reflexivity;
    now contradiction Hne.
Qed.


Lemma config_calls_app a b : config_calls (a ++ b) = config_calls a ++ config_calls b.
Proof. apply filter_app. Qed.

Lemma task_calls_app a b : task_calls (a ++ b) = task_calls a ++ task_calls b.
Proof. apply filter_app. Qed.

Lemma task_names_invocations ts :
  map invoked_name (map task_call (map strip_task ts)) = map fst ts.
Proof. rewrite !map_map. apply map_ext. now intros [n d]. Qed.

(** ** The shape of a worker's run *)

(** The shape of every run of a worker: bootstrap, then configuration
    calls, then task invocations, then teardown, each part an initial part
    of what the program asks for, and each started only when the one before
    it is complete. *)
Lemma run_phases w rank gpus dataset c h :
  let out := outcome w h (run_steps w rank gpus dataset c) in
  let boot := step_events (bootstrap_steps w rank gpus dataset c) in
  let cfg := all_section_calls c (tasks c) in
  let invocations := map task_call (map strip_task (tasks c)) in
  let tear := step_events (teardown_steps gpus) in
  exists eb ec ep et,
    fst out = eb ++ ec ++ ep ++ et /\
    prefix eb boot /\
    Forall (in_phase Configure) ec /\
    prefix (config_calls ec) cfg /\
    prefix ep invocations /\
    prefix et tear /\
    (ep ++ et <> [] -> config_calls ec = cfg) /\
    (ep ++ et <> [] -> existsb (fun t => blocked c (snd t)) (tasks c) = false) /\
    (et <> [] -> ep = invocations) /\
    (snd out = Ok tt ->
     eb = boot /\ ec = cfg /\ ep = invocations /\ et = tear) /\
    (forall e, snd out = Raise e -> et <> [] -> e = Raised DestroyProcessGroup).
Proof.
  cbv zeta. unfold run_steps.
  set (pb := bootstrap_steps w rank gpus dataset c).
  set (pc := configure_steps c (tasks c)).
  set (pp := perform_steps w (map strip_task (tasks c))).
  rewrite outcome_app.
  pose proof (outcome_is_prefix w h pb) as Hb.
  destruct (outcome w h pb) as [e1 [[]|e]] eqn:E1; simpl in Hb.
  2:{ exists e1, [], [], []. simpl. rewrite app_nil_r.
      repeat split; auto using prefix_nil; try congruence; discriminate. }
  apply outcome_ok_eq in E1. destruct E1 as [-> _]. clear Hb.
  rewrite outcome_app.
  pose proof (configure_outcome_prefix w c (tasks c) (h ++ step_events pb)) as Hc.
  pose proof (outcome_Forall w (h ++ step_events pb) pc
                (configure_steps_phase c (tasks c))) as Hph.
  fold pc in Hc.
  destruct (outcome w (h ++ step_events pb) pc) as [e2 [[]|e]] eqn:E2;
    simpl in Hc, Hph.
  2:{ exists (step_events pb), e2, [], []. simpl. rewrite !app_nil_r.
      repeat split; auto using prefix_nil, prefix_refl; try congruence;
        discriminate. }
  apply outcome_ok_eq in E2. destruct E2 as [-> Hnr].
  assert (Hblk : existsb (fun t => blocked c (snd t)) (tasks c) = false).
  { now rewrite <- configure_steps_raise. }
  unfold pc in Hnr. apply configure_steps_complete in Hnr. fold pc in Hnr.
  assert (Hcfg : step_events pc = all_section_calls c (tasks c)).
  { rewrite Hnr. apply step_events_calls. }
  assert (Hcc : config_calls (step_events pc) = all_section_calls c (tasks c)).
  { rewrite Hcfg. apply config_calls_section_calls. }
  clear Hc.
  rewrite outcome_app.
  pose proof (perform_outcome_prefix w (map strip_task (tasks c))
                ((h ++ step_events pb) ++ step_events pc)) as Hp.
  fold pp in Hp.
  destruct (outcome w ((h ++ step_events pb) ++ step_events pc) pp)
    as [e3 [[]|e]] eqn:E3; simpl in Hp.
  2:{ exists (step_events pb), (step_events pc), e3, []. simpl.
      rewrite !app_nil_r.
      repeat split; auto using prefix_nil, prefix_refl; try congruence;
        try discriminate.
      all: rewrite Hcc; auto using prefix_refl. }
  apply outcome_ok_eq in E3. destruct E3 as [-> Hnp].
  unfold pp in Hnp. apply perform_steps_complete in Hnp. fold pp in Hnp.
  assert (Hinv : step_events pp = map task_call (map strip_task (tasks c))).
  { rewrite Hnp. apply step_events_calls. }
  clear Hp.
  unfold teardown_steps. destruct (multi gpus); simpl.
  - destruct (raises w _ DestroyProcessGroup); simpl;
      exists (step_events pb), (step_events pc), (step_events pp),
             [DestroyProcessGroup];
      repeat split; auto using prefix_refl; try congruence;
        try (rewrite Hcc; auto using prefix_refl);
        try (rewrite Hinv; auto using prefix_refl); try discriminate.
  - exists (step_events pb), (step_events pc), (step_events pp), [].
    repeat split; auto using prefix_refl; try congruence;
      try (rewrite Hcc; auto using prefix_refl);
      try (rewrite Hinv; auto using prefix_refl).
Qed.

Lemma resolve_device_accelerated rank gpus :
  gpus <> [] -> resolve_device rank gpus = DevIndex rank.
Proof. unfold resolve_device. now destruct gpus. Qed.

Lemma announced_app a b : announced (a ++ b) = announced a ++ announced b.
Proof. apply flat_map_app. Qed.

Lemma announced_none rank device evs :
  Forall (after_announcement rank device) evs -> announced evs = [].
Proof.
  induction 1 as [|ev evs [_ Hev] _ IH]; [reflexivity|].
  unfold announced in *. cbn [flat_map] in *.
  rewrite app_nil_r in Hev. now rewrite Hev, IH.
Qed.

Lemma later_phase_after_announcement rank device ev :
  phase_of ev = Configure \/ phase_of ev = Perform \/ phase_of ev = Teardown ->
  after_announcement rank device ev.
Proof.
  destruct ev as [[]| | | | | | | | | | | | | | | | | |]; cbn;
    intros [H|[H|H]]; try discriminate; (split; [exact I | reflexivity]).
Qed.

(** A worker announces its rank and its device once, as its first
    statement, and every later event agrees with them. *)
Lemma run_bound w rank gpus dataset c h :
  let device := resolve_device rank gpus in
  let evs := fst (outcome w h (run_steps w rank gpus dataset c)) in
  (exists rest, evs = Log (RunningWorker rank device) :: rest) /\
  announced evs = [(rank, device)] /\
  Forall (bound_to rank device) evs.
Proof.
  cbv zeta. unfold run_steps, bootstrap_steps. rewrite <- !app_assoc.
  cbn [app outcome].
  set (device := resolve_device rank gpus).
  match goal with
  | |- context [outcome w ?h' ?p] =>
      pose proof (@outcome_Forall (after_announcement rank device) w h' p) as HF;
      destruct (outcome w h' p) as [evs r]
  end.
  cbn [fst] in *.
  assert (Hevs : Forall (after_announcement rank device) evs).
  { apply HF. rewrite step_events_app, Forall_app. split.
    { destruct (multi gpus); repeat constructor. }
    change (step_events (?s1 :: ?s2 :: ?p))
      with (step_event s1 ++ step_event s2 ++ step_events p).
    cbn [step_event app]. constructor; [now split|]. constructor; [now split|].
    rewrite !step_events_app, !Forall_app. repeat split.
    - destruct (kind c =? "gnn"); repeat constructor.
    - eapply Forall_impl; [|apply configure_steps_phase].
      intros ev Hev. apply later_phase_after_announcement. now left.
    - eapply Forall_impl; [|apply perform_steps_phase].
      intros ev Hev. apply later_phase_after_announcement. right. now left.
    - eapply Forall_impl; [|apply teardown_steps_phase].
      intros ev Hev. apply later_phase_after_announcement. right. now right. }
  split; [now exists evs|]. split.
  - change (announced (Log (RunningWorker rank device) :: evs))
      with ((rank, device) :: announced evs).
    now rewrite (announced_none Hevs).
  - constructor; [now split|].
    eapply Forall_impl; [|exact Hevs]. now intros ev [Hb _].
Qed.

(** A worker never builds the dataset; it hands the dataset it was given to
    the engine only in a run of kind gnn, once, at the end of its
    bootstrap. *)
Lemma run_dataset_calls w rank gpus dataset c st :
  exists evs,
    fst (run rank gpus dataset c w st) = extend st evs /\
    filter is_build_dataset evs = [] /\
    (kind c <> "gnn" -> filter is_set_dataset evs = []) /\
    (kind c = "gnn" ->
     prefix (filter is_set_dataset evs) [SetDataset dataset] /\
     (quiet w \/ snd (run rank gpus dataset c w st) = Ok tt ->
      filter is_set_dataset evs = [SetDataset dataset])).
Proof.
  rewrite run_outcome. cbn [fst snd].
  exists (fst (outcome w (trace st) (run_steps w rank gpus dataset c))).
  split; [reflexivity|]. split.
  { apply filter_none. eapply Forall_impl; [|apply outcome_Forall, run_steps_worker].
    intros ev. destruct ev as [[]| | | | | | | | | | | | | | | | | |];
      cbn; try reflexivity; intros Hc; now contradiction Hc. }
  unfold run_steps. rewrite outcome_app.
  set (pb := bootstrap_steps w rank gpus dataset c).
  set (rest := configure_steps c (tasks c) ++ _).
  assert (Hrest : forall h, filter is_set_dataset (fst (outcome w h rest)) = []).
  { intros h. apply filter_none.
    apply (@outcome_Forall (fun ev => is_set_dataset ev = false)).
    unfold rest. rewrite !step_events_app, !Forall_app. repeat split.
    - eapply Forall_impl; [|apply configure_steps_phase].
      unfold in_phase. intros ev Hev.
      destruct ev as [[]| | | | | | | | | | | | | | | | | |];
        try reflexivity; discriminate.
    - eapply Forall_impl; [|apply perform_steps_phase].
      unfold in_phase. intros ev Hev.
      destruct ev as [[]| | | | | | | | | | | | | | | | | |];
        try reflexivity; discriminate.
    - eapply Forall_impl; [|apply teardown_steps_phase].
      unfold in_phase. intros ev Hev.
      destruct ev as [[]| | | | | | | | | | | | | | | | | |];
        try reflexivity; discriminate. }
  assert (Hboot : filter is_set_dataset (step_events pb) =
                  if kind c =? "gnn" then [SetDataset dataset] else []).
  { unfold pb, bootstrap_steps.
    destruct (multi gpus), (kind c =? "gnn"); reflexivity. }
  pose proof (outcome_is_prefix w (trace st) pb) as Hpre.
  pose proof (@outcome_quiet w (trace st) pb) as Hquiet.
  destruct (outcome w (trace st) pb) as [e1 [[]|e]] eqn:E1; cbn [fst] in Hpre.
  - apply outcome_ok_eq in E1. destruct E1 as [-> _].
    specialize (Hrest (trace st ++ step_events pb)).
    destruct (outcome w (trace st ++ step_events pb) rest) as [e2 r].
    cbn [fst snd] in *. rewrite filter_app, Hrest, app_nil_r, Hboot.
    split.
    + intros Hk. apply String.eqb_neq in Hk. now rewrite Hk.
    + intros ->. cbn. split; [apply prefix_refl | reflexivity].
  - cbn [fst snd]. apply (prefix_filter is_set_dataset) in Hpre.
    rewrite Hboot in Hpre. split.
    + intros Hk. apply String.eqb_neq in Hk. rewrite Hk in Hpre.
      destruct Hpre as [l Hl]. now destruct (filter is_set_dataset e1).
    + intros Hk. rewrite Hk in Hpre. cbn in Hpre. split; [exact Hpre|].
      intros [Hq|Hr]; [|discriminate].
      specialize (Hquiet Hq (bootstrap_no_raise w rank gpus dataset c)).
      discriminate.
Qed.

(** ** The controlling process *)

(** The three ways the output-directory step can go. *)
Lemma ensure_dump_path_cases p w st :
  let files := fs st ++ concurrent w (trace st) in
  let h := (trace st ++ [PathExists p false]) ++ [Log (CreatingDirectory p)] in
  let files' := files ++ concurrent w h in
  ensure_dump_path p w st =
  if mem p files then
    ({| trace := trace st ++ [PathExists p true]; fs := files;
        spawned := spawned st |}, Ok tt)
  else if mem p files' then
    ({| trace := h ++ [Makedirs p]; fs := files'; spawned := spawned st |},
     Raise (FileExistsError p))
  else if raises w h (Makedirs p) then
    ({| trace := h ++ [Makedirs p]; fs := files'; spawned := spawned st |},
     Raise (Raised (Makedirs p)))
  else
    ({| trace := h ++ [Makedirs p]; fs := files' ++ [p];
        spawned := spawned st |}, Ok tt).
Proof.
  cbv zeta. unfold ensure_dump_path, bind, os_path_exists. cbn [fst snd].
  destruct (mem p (fs st ++ concurrent w (trace st))) eqn:E; cbn [negb when].
  - reflexivity.
  - unfold emit, os_makedirs, record. cbn [trace fs spawned].
    destruct (mem p _); [reflexivity|].
    destruct (raises w _ (Makedirs p)); reflexivity.
Qed.

Lemma ensure_dump_path_events p w st :
  exists evs,
    trace (fst (ensure_dump_path p w st)) = trace st ++ evs /\
    spawned (fst (ensure_dump_path p w st)) = spawned st /\
    Forall (is_dir_event p) evs /\
    (snd (ensure_dump_path p w st) = Ok tt ->
     exists b, In (PathExists p b) evs /\ (b = false -> In (Makedirs p) evs)).
Proof.
  rewrite ensure_dump_path_cases. cbv zeta.
  destruct (mem p (fs st ++ concurrent w (trace st))).
  - exists [PathExists p true]. cbn [fst snd trace spawned].
    split; [reflexivity|]. split; [reflexivity|]. split.
    + repeat constructor.
    + intros _. exists true. split; [now left | discriminate].
  - exists [PathExists p false; Log (CreatingDirectory p); Makedirs p].
    assert (Hd : Forall (is_dir_event p)
                   [PathExists p false; Log (CreatingDirectory p); Makedirs p]).
    { repeat constructor. }
    assert (Hin : exists b,
               In (PathExists p b)
                  [PathExists p false; Log (CreatingDirectory p); Makedirs p] /\
               (b = false ->
                In (Makedirs p)
                   [PathExists p false; Log (CreatingDirectory p); Makedirs p])).
    { exists false. split; [now left | intros _; right; right; now left]. }
    destruct (mem p _); [|destruct (raises w _ (Makedirs p))];
      cbn [fst snd trace spawned]; rewrite <- !app_assoc;
      (split; [reflexivity|]); (split; [reflexivity|]); (split; [exact Hd|]);
      intros; exact Hin.
Qed.

Lemma ensure_dump_path_calm p w st :
  calm w ->
  exists evs files,
    ensure_dump_path p w st =
      ({| trace := trace st ++ evs; fs := files; spawned := spawned st |},
       Ok tt) /\
    Forall (is_dir_event p) evs.
Proof.
  intros [Hq Hc]. rewrite ensure_dump_path_cases. cbv zeta.
  rewrite !Hc, !app_nil_r, Hq.
  destruct (mem p (fs st)).
  - eexists _, _. split; [reflexivity|]. repeat constructor.
  - eexists _, _. rewrite <- !app_assoc. split; [reflexivity|].
    repeat constructor.
Qed.

Lemma dir_events_no_classification p evs :
  Forall (is_dir_event p) evs -> filter is_classification evs = [].
Proof.
  intros H. apply filter_none. eapply Forall_impl; [|exact H].
  intros ev. now destruct ev as [[]| | | | | | | | | | | | | | | | | |].
Qed.

Lemma dir_events_quiet p evs :
  Forall (is_dir_event p) evs ->
  filter is_build_dataset evs = [] /\ filter is_worker_start evs = [].
Proof.
  intros H. split; apply filter_none; (eapply Forall_impl; [|exact H]);
    intros ev; now destruct ev as [[]| | | | | | | | | | | | | | | | | |].
Qed.

Lemma acquire_dataset_cases c w st :
  acquire_dataset c w st =
  if kind c =? "gnn" then
    (record (BuildDataset c) st,
     if raises w (trace st) (BuildDataset c) then Raise (Raised (BuildDataset c))
     else Ok (Some (built_dataset w)))
  else (st, Ok None).
Proof.
  unfold acquire_dataset. destruct (kind c =? "gnn"); [|reflexivity].
  unfold build_dataset, bind, call, ret. cbn [fst snd].
  now destruct (raises w (trace st) (BuildDataset c)).
Qed.

Lemma mp_spawn_cases child dataset c (n : nat) w st :
  mp_spawn child (fun rank => run rank (gpu_list c) dataset c) n w st =
  if raises w (trace st) (Spawn n) then
    (record (Spawn n) st, Raise (Raised (Spawn n)))
  else
    let outs := map (worker_outcome child dataset c (fs st)) (seq 0 n) in
    ({| trace := trace st ++ [Spawn n]; fs := fs st; spawned := outs |},
     match find is_failure outs with
     | Some o => Raise (ProcessRaisedException (fst o))
     | None => Ok tt
     end).
Proof.
  unfold mp_spawn. destruct (raises w (trace st) (Spawn n)); [reflexivity|].
  cbv zeta. cbn [record trace fs spawned].
  assert (E : map (fun i => let '(s, r) :=
                      run i (gpu_list c) dataset c (child i) (init_state (fs st))
                    in (i, (trace s, r))) (seq 0 n) =
              map (worker_outcome child dataset c (fs st)) (seq 0 n)).
  { apply map_ext. intros i. unfold worker_outcome.
    now destruct (run i (gpu_list c) dataset c (child i) (init_state (fs st))). }
  rewrite E.
  now destruct (find is_failure (map (worker_outcome child dataset c (fs st)) (seq 0 n))).
Qed.

Lemma mp_spawn_ext child (f g : nat -> M unit) n w st :
  (forall i w' st', f i w' st' = g i w' st') ->
  mp_spawn child f n w st = mp_spawn child g n w st.
Proof.
  intros H. unfold mp_spawn.
  destruct (raises w (trace st) (Spawn n)); [reflexivity|]. cbv zeta.
  assert (E : map (fun i => let '(s, r) := f i (child i) (init_state (fs (record (Spawn n) st)))
                            in (i, (trace s, r))) (seq 0 n) =
              map (fun i => let '(s, r) := g i (child i) (init_state (fs (record (Spawn n) st)))
                            in (i, (trace s, r))) (seq 0 n)).
  { apply map_ext. intros i. now rewrite H. }
  now rewrite E.
Qed.

Lemma launch_cases child dataset c w st :
  launch child dataset c w st =
  let gpus := gpu_list c in
  match length gpus with
  | 0 =>
      let o := outcome w (trace st ++ [Log GpuListEmpty])
                       (run_steps w 0 gpus dataset c) in
      (extend st (Log GpuListEmpty :: fst o), snd o)
  | 1 =>
      let o := outcome w (trace st ++ [Log OneGpu])
                       (run_steps w 0 gpus dataset c) in
      (extend st (Log OneGpu :: fst o), snd o)
  | n =>
      let st1 := extend st [Log MultipleGpus;
                            Log (AccessibleDevices (map devid gpus));
                            ConfigureLog] in
      if raises w (trace st ++ [Log MultipleGpus;
                                Log (AccessibleDevices (map devid gpus))])
                ConfigureLog
      then (st1, Raise (Raised ConfigureLog))
      else mp_spawn child (fun rank => run rank gpus dataset c) n w st1
  end.
Proof.
  unfold launch. cbv zeta.
  destruct (length (gpu_list c)) as [|[|n]]; cbn [Nat.eqb].
  - unfold bind, emit. rewrite run_outcome, record_extend, extend_extend.
    reflexivity.
  - unfold bind, emit. rewrite run_outcome, record_extend, extend_extend.
    reflexivity.
  - unfold bind, emit, call. rewrite !record_extend, !extend_extend.
    cbn [trace extend app].
    destruct (raises w _ ConfigureLog); reflexivity.
Qed.

Lemma launch_events child dataset c w st :
  exists m rest,
    trace (fst (launch child dataset c w st)) = trace st ++ Log m :: rest /\
    is_classification (Log m) = true /\
    Forall launch_event rest.
Proof.
  rewrite launch_cases. cbv zeta.
  destruct (length (gpu_list c)) as [|[|n]].
  - eexists _, _. cbn [fst trace extend]. split; [reflexivity|].
    split; [reflexivity|].
    eapply Forall_impl; [|apply outcome_Forall, run_steps_worker].
    intros ev. now destruct ev as [[]| | | | | | | | | | | | | | | | | |].
  - eexists _, _. cbn [fst trace extend]. split; [reflexivity|].
    split; [reflexivity|].
    eapply Forall_impl; [|apply outcome_Forall, run_steps_worker].
    intros ev. now destruct ev as [[]| | | | | | | | | | | | | | | | | |].
  - destruct (raises w _ ConfigureLog).
    + eexists _, _. cbn [fst trace extend]. split; [reflexivity|].
      split; [reflexivity|]. repeat constructor.
    + rewrite mp_spawn_cases.
      destruct (raises w _ (Spawn (S (S n)))); cbv zeta;
        cbn [fst trace record extend]; rewrite <- app_assoc; cbn [app];
        eexists _, _; (split; [reflexivity|]); (split; [reflexivity|]);
        repeat constructor.
Qed.


Lemma launch_events_no_build evs :
  Forall launch_event evs -> filter is_build_dataset evs = [].
Proof.
  intros H. apply filter_none. eapply Forall_impl; [|exact H].
  intros ev. destruct ev as [[]| | | | | | | | | | | | | | | | | |];
    cbn; try reflexivity; intros Hc; now contradiction Hc.
Qed.

Lemma launch_inline child dataset c w st :
  length (gpu_list c) <= 1 ->
  exists m,
    is_classification (Log m) = true /\
    launch child dataset c w st =
      run 0 (gpu_list c) dataset c w (record (Log m) st).
Proof.
  intros Hlen. unfold launch. cbv zeta.
  destruct (length (gpu_list c)) as [|[|n]]; cbn [Nat.eqb]; [| |lia].
  - exists GpuListEmpty. split; reflexivity.
  - exists OneGpu. split; reflexivity.
Qed.

Lemma launch_spawned child dataset c w st o :
  In o (spawned (fst (launch child dataset c w st))) ->
  In o (spawned st) \/ o = worker_outcome child dataset c (fs st) (fst o).
Proof.
  rewrite launch_cases. cbv zeta.
  destruct (length (gpu_list c)) as [|[|n]]; cbn [fst spawned extend]; auto.
  destruct (raises w _ ConfigureLog); cbn [fst spawned extend]; auto.
  rewrite mp_spawn_cases.
  destruct (raises w _ (Spawn (S (S n)))); cbv zeta;
    cbn [fst spawned extend record fs]; auto.
  intros Hin. apply in_map_iff in Hin. destruct Hin as (j & <- & _).
  right. reflexivity.
Qed.

(** What the launch does with the dataset it is given: at most one
    accelerator, the inline worker runs on it and nothing is spawned; two
    accelerators or more and a spawn that takes place, the workers of
    ranks 0..n-1 run on it. *)
Lemma launch_workers child dataset c w st :
  (length (gpu_list c) <= 1 ->
   spawned (fst (launch child dataset c w st)) = spawned st /\
   exists m,
     is_classification (Log m) = true /\
     launch child dataset c w st =
       run 0 (gpu_list c) dataset c w (record (Log m) st)) /\
  (2 <= length (gpu_list c) ->
   snd (launch child dataset c w st) = Ok tt \/
   (exists i, snd (launch child dataset c w st) =
              Raise (ProcessRaisedException i)) \/
   quiet w ->
   spawned (fst (launch child dataset c w st)) =
     map (worker_outcome child dataset c (fs st))
         (seq 0 (length (gpu_list c)))).
Proof.
  split.
  - intros Hle.
    destruct (launch_inline child dataset c w st Hle) as (m & Hm & Hrun).
    split; [|now exists m].
    rewrite Hrun, run_outcome. reflexivity.
  - intros Hlen. rewrite launch_cases. cbv zeta.
    destruct (length (gpu_list c)) as [|[|n]] eqn:En; [lia | lia |].
    destruct (raises w _ ConfigureLog) eqn:E1.
    { cbn [fst snd]. intros [H|[[i H]|Hq]]; try discriminate.
      rewrite Hq in E1. discriminate. }
    rewrite mp_spawn_cases.
    destruct (raises w _ (Spawn (S (S n)))) eqn:E2.
    { cbn [fst snd]. intros [H|[[i H]|Hq]]; try discriminate.
      rewrite Hq in E2. discriminate. }
    intros _. reflexivity.
Qed.

(** In a calm world the controlling process reaches the launch, with the
    dataset of the run in hand. *)
Lemma main_calm child c w st :
  calm w ->
  exists evs files,
    main child c w st =
      launch child (shared_dataset w c) c w
        {| trace := trace st ++ evs; fs := files; spawned := spawned st |} /\
    Forall (fun ev => is_dir_event (dump_path c) ev \/ ev = BuildDataset c) evs.
Proof.
  intros Hcalm. unfold main, bind.
  destruct (ensure_dump_path_calm (dump_path c) st Hcalm)
    as (e1 & files & -> & Hd).
  rewrite acquire_dataset_cases. unfold shared_dataset.
  destruct Hcalm as [Hq _].
  destruct (kind c =? "gnn").
  - rewrite Hq. exists (e1 ++ [BuildDataset c]), files.
    unfold record. cbn [trace fs spawned]. rewrite <- app_assoc.
    split; [reflexivity|]. apply Forall_app. split.
    + eapply Forall_impl; [|exact Hd]. intros ev Hev. now left.
    + constructor; [now right | constructor].
  - exists e1, files. split; [reflexivity|].
    eapply Forall_impl; [|exact Hd]. intros ev Hev. now left.
Qed.

Lemma coordinator_events_unbound c rank device evs :
  Forall (fun ev => is_dir_event (dump_path c) ev \/ ev = BuildDataset c) evs ->
  announced evs = [] /\ Forall (bound_to rank device) evs.
Proof.
  induction 1 as [|ev evs Hev _ [IH1 IH2]]; [split; [reflexivity | constructor]|].
  assert (H : announced [ev] = [] /\ bound_to rank device ev).
  { destruct Hev as [Hev| ->]; [|split; [reflexivity | exact I]].
    destruct ev as [[]| | | | | | | | | | | | | | | | | |];
      cbn in Hev; try contradiction; split; try reflexivity; exact I. }
  destruct H as [Ha Hb]. split.
  - change (ev :: evs) with ([ev] ++ evs). now rewrite announced_app, Ha, IH1.
  - now constructor.
Qed.

(** ** The sample inputs *)

Lemma sample_world_quiet : quiet Sample.calm_world.
Proof. intros h ev. reflexivity. Qed.

(** * The claims *)

(** C1.  Whenever the configuration phase completes, it has made, for
    every task in list order, exactly one call per recognized section
    present in its description, in the order data_loaders, optimizers,
    scheduler, loss, whatever the order of the keys in the description, and
    it leaves every description without its recognized sections and
    otherwise unchanged.  Whenever the worker completes, the execution phase
    has invoked every task with exactly these remaining arguments.  Both
    complete when the collaborators return normally, the engine has the
    tasks, and the kind is cnn or gnn (or no description has a data_loaders
    section).  A second configuration pass over the descriptions so left
    makes no call and changes nothing, in any world. *)
Theorem C1_sections_applied_once_in_order_then_removed :
  forall (w : World) (rank : nat) (gpus : list nat)
         (dataset : option Dataset) (c : HydraConfig) (st : State),
    let remaining := map strip_task (tasks c) in
    let calls := all_section_calls c (tasks c) in
    let whole :=
      step_events (bootstrap_steps w rank gpus dataset c) ++
      calls ++ map task_call remaining ++
      step_events (teardown_steps gpus) in
    (forall st' ts',
       configure_tasks c (tasks c) w st = (st', Ok ts') ->
       st' = extend st calls /\ ts' = remaining) /\
    (snd (run rank gpus dataset c w st) = Ok tt ->
     fst (run rank gpus dataset c w st) = extend st whole) /\
    (quiet w ->
     known_kind c = true \/ no_data_loaders (tasks c) ->
     configure_tasks c (tasks c) w st = (extend st calls, Ok remaining) /\
     ((forall t, In t (tasks c) -> hasattr w (fst t) = true) ->
      run rank gpus dataset c w st = (extend st whole, Ok tt))) /\
    remaining =
      map (fun t => (fst t, filter (fun kv => negb (is_recognized (fst kv)))
                                   (snd t)))
          (tasks c) /\
    (forall w' st', configure_tasks c remaining w' st' = (st', Ok remaining)) /\
    (forall d d', NoDup (map fst d) -> Permutation d d' ->
                  section_calls c d' = section_calls c d).
Proof.
  intros w rank gpus dataset c st remaining calls whole.
  split; [|split; [|split; [|split; [|split]]]].
  - intros st' ts' E.
    destruct (implements_run_state st (implements_configure_tasks w c (tasks c)))
      as [H1 H2].
    rewrite E in H1, H2. cbn [fst snd] in H1, H2.
    destruct (outcome w (trace st) (configure_steps c (tasks c)))
      as [evs [[]|e]] eqn:Eo; cbn [fst snd] in H1, H2; [|discriminate].
    apply outcome_ok_eq in Eo. destruct Eo as [-> Hnr].
    rewrite (configure_steps_complete c (tasks c) Hnr), step_events_calls in H1.
    split; [exact H1 | now injection H2].
  - intros Hok. rewrite run_outcome in Hok |- *. cbn [fst snd] in *.
    destruct (run_phases w rank gpus dataset c (trace st))
      as (eb & ec & ep & et & Hout & _ & _ & _ & _ & _ & _ & _ & _ & Hall & _).
    destruct (Hall Hok) as (-> & -> & -> & ->). now rewrite Hout.
  - intros Hq Hkind.
    assert (Hnr : existsb is_raise (configure_steps c (tasks c)) = false).
    { destruct Hkind as [Hk|Hnl].
      - rewrite configure_steps_known by assumption. apply no_raise_calls.
      - now apply configure_steps_no_loaders_no_raise. }
    pose proof (configure_steps_complete c (tasks c) Hnr) as Hsteps.
    split.
    + destruct (implements_run_state st (implements_configure_tasks w c (tasks c)))
        as [H1 H2].
      rewrite (surjective_pairing (configure_tasks c (tasks c) w st)), H1, H2.
      rewrite Hsteps. rewrite outcome_quiet by (auto using no_raise_calls).
      cbn [fst snd]. now rewrite step_events_calls.
    + intros Hattr. rewrite run_outcome. unfold run_steps. rewrite Hsteps.
      rewrite perform_steps_available.
      2:{ intros t Ht. apply in_map_iff in Ht. destruct Ht as (t0 & <- & Ht0).
          cbn [strip_task fst]. now apply Hattr. }
      rewrite outcome_quiet; [cbn [fst snd]|assumption|].
      * unfold whole. now rewrite !step_events_app, !step_events_calls.
      * rewrite !existsb_app, !no_raise_calls, bootstrap_no_raise.
        unfold teardown_steps. destruct (multi gpus); reflexivity.
  - unfold remaining. apply map_ext. intros [n d]. unfold strip_task; simpl.
    now rewrite strip_filter.
  - intros w' st'.
    destruct (implements_run_state st' (implements_configure_tasks w' c remaining))
      as [H1 H2].
    rewrite (surjective_pairing (configure_tasks c remaining w' st')), H1, H2.
    unfold remaining. rewrite configure_steps_strip, map_strip_strip. simpl.
    now rewrite extend_nil.
  - intros d d'. apply section_calls_perm.
Qed.

(** C1, on a run of kind cnn whose [train] description lists its sections
    in the order loss, data_loaders, optimizers. *)
Lemma C1_witness :
  run 0 [] None (Sample.config [] "cnn") Sample.calm_world (init_state []) =
  ({| trace :=
        [Log (RunningWorker 0 DevCpu);
         BuildModel (VStr "resnet") DevCpu false;
         Instantiate (VStr "classifier") "/outputs/run/" 0 DevCpu;
         ConfigureDataLoaders (VStr "run-level data") (VStr "loaders");
         ConfigureOptimizers (VStr "adam");
         ConfigureLoss (VStr "mse");
         TaskCall "train" [("epochs", VInt 8)];
         TaskCall "evaluate" [("report", VBool true)]];
      fs := [];
      spawned := [] |}, Ok tt).
Proof.
  destruct (C1_sections_applied_once_in_order_then_removed Sample.calm_world
              0 [] None (Sample.config [] "cnn") (init_state []))
    as (_ & _ & H & _).
  destruct (H sample_world_quiet (or_introl eq_refl)) as [_ Hrun].
  apply Hrun. intros t _. reflexivity.
Defined.




(** C3 (as the code has it).  In a calm controlling process: for an
    accelerator list of length 1 no worker is spawned, the single worker
    runs inline with rank 0 and its device is index 0, whatever identifier
    the list holds; for a list of length n >= 2 exactly n workers are
    spawned, with ranks 0..n-1 in this order, and the worker of rank i
    announces device index i and builds its model and engine on it,
    whatever the entry at position i of the list is. *)
Theorem C3_workers_ranks_and_devices :
  forall (child : nat -> World) (c : HydraConfig) (w : World)
         (files : list string),
    calm w ->
    let gpus := gpu_list c in
    let out := main child c w (init_state files) in
    (length gpus = 1 ->
     spawned (fst out) = [] /\
     announced (trace (fst out)) = [(0, DevIndex 0)] /\
     Forall (bound_to 0 (DevIndex 0)) (trace (fst out))) /\
    (2 <= length gpus ->
     announced (trace (fst out)) = [] /\
     map fst (spawned (fst out)) = seq 0 (length gpus) /\
     forall i tr r,
       In (i, (tr, r)) (spawned (fst out)) ->
       i < length gpus /\
       (exists rest, tr = Log (RunningWorker i (DevIndex i)) :: rest) /\
       announced tr = [(i, DevIndex i)] /\
       Forall (bound_to i (DevIndex i)) tr).
Proof.
  intros child c w files Hcalm gpus out. subst out gpus.
  destruct (main_calm child c (init_state files) Hcalm) as (evs & files' & -> & Hevs).
  cbn [trace spawned init_state app].
  rewrite launch_cases. cbv zeta. split.
  - intros Hlen. rewrite Hlen. cbn [fst trace spawned extend].
    destruct (run_bound w 0 (gpu_list c) (shared_dataset w c) c
                (evs ++ [Log OneGpu])) as (_ & Ha & Hb).
    rewrite resolve_device_accelerated in Ha, Hb
      by (now destruct (gpu_list c)).
    destruct (coordinator_events_unbound 0 (DevIndex 0) Hevs) as [Ha0 Hb0].
    split; [reflexivity|]. split.
    + change (Log OneGpu :: ?l) with ([Log OneGpu] ++ l).
      now rewrite !announced_app, Ha0, Ha.
    + apply Forall_app. split; [exact Hb0|]. constructor; [exact I | exact Hb].
  - intros Hlen.
    destruct (length (gpu_list c)) as [|[|n]] eqn:En; [lia | lia |].
    destruct Hcalm as [Hq _]. rewrite Hq, mp_spawn_cases, Hq. cbv zeta.
    cbn [fst trace spawned fs extend].
    destruct (coordinator_events_unbound 0 DevCpu Hevs) as [Ha0 _].
    split; [|split].
    + rewrite <- app_assoc, announced_app, Ha0. reflexivity.
    + rewrite map_map. cbn [worker_outcome fst]. apply map_id.
    + intros i tr r Hin. apply in_map_iff in Hin.
      destruct Hin as (j & Hj & Hseq). apply in_seq in Hseq.
      unfold worker_outcome in Hj. injection Hj as -> Htr _.
      rewrite run_outcome in Htr. cbn [fst trace extend init_state app] in Htr.
      subst tr. split; [lia|].
      destruct (run_bound (child i) i (gpu_list c) (shared_dataset w c) c [])
        as (Hhead & Ha & Hb).
      rewrite resolve_device_accelerated in Hhead, Ha, Hb
        by (destruct (gpu_list c); discriminate).
      auto.
Qed.

(** C3, spawning on the accelerators 2 and 3. *)
Lemma C3_witness :
  map fst (spawned (fst (main (fun _ => Sample.calm_world)
                              (Sample.config [2; 3] "cnn")
                              Sample.calm_world (init_state [])))) = [0; 1].
Proof.
  refine (proj1 (proj2 (proj2
    (@C3_workers_ranks_and_devices (fun _ => Sample.calm_world)
       (Sample.config [2; 3] "cnn") Sample.calm_world []
       (conj sample_world_quiet (fun _ => eq_refl))) _))).
  cbn. lia.
Defined.

(** C3 fails as stated: with the single accelerator 3 the worker runs on
    device index 0, and with the accelerators 2 and 3 the workers of ranks
    0 and 1 run on the device indices 0 and 1; none runs on the identifier
    the list holds at its position. *)
Lemma C3_counterexample :
  (let out := main (fun _ => Sample.calm_world) (Sample.config [3] "cnn")
                   Sample.calm_world (init_state []) in
   announced (trace (fst out)) = [(0, DevIndex 0)] /\
   In (BuildModel (VStr "resnet") (DevIndex 0) false) (trace (fst out)) /\
   DevIndex 0 <> DevIndex (nth 0 [3] 0)) /\
  (let out := main (fun _ => Sample.calm_world) (Sample.config [2; 3] "cnn")
                   Sample.calm_world (init_state []) in
   map (fun o => (fst o, announced (fst (snd o)))) (spawned (fst out)) =
     [(0, [(0, DevIndex 0)]); (1, [(1, DevIndex 1)])] /\
   DevIndex 0 <> DevIndex (nth 0 [2; 3] 0) /\
   DevIndex 1 <> DevIndex (nth 1 [2; 3] 0)).
Proof.
  split; cbv zeta.
  - split; [reflexivity|]. split; [|discriminate].
    vm_compute. repeat (first [left; reflexivity | right]).
  - split; [reflexivity|]. split; discriminate.
Qed.

(** C4.  Every run of a worker, however it ends, splits into a first part
    without task invocations and a second part without configuration calls.
    The configuration calls of the first part are an initial part of the
    calls the descriptions ask for, taken task by task in task-list order;
    the names invoked in the second part are an initial part of the task
    names in task-list order, whatever sections the descriptions carried.
    As soon as one task is invoked, the configuration calls of all tasks
    have been made; and a run that completes has made all configuration
    calls and invoked all tasks. *)
Theorem C4_tasks_in_list_order_after_configuration :
  forall (w : World) (rank : nat) (gpus : list nat)
         (dataset : option Dataset) (c : HydraConfig) (st : State),
  exists pre post,
    fst (run rank gpus dataset c w st) = extend st (pre ++ post) /\
    task_calls pre = [] /\
    config_calls post = [] /\
    prefix (config_calls pre) (all_section_calls c (tasks c)) /\
    prefix (task_names post) (map fst (tasks c)) /\
    (task_names post <> [] ->
     config_calls pre = all_section_calls c (tasks c)) /\
    (snd (run rank gpus dataset c w st) = Ok tt ->
     config_calls pre = all_section_calls c (tasks c) /\
     task_names post = map fst (tasks c)).
Proof.
  intros w rank gpus dataset c st. rewrite run_outcome. cbn [fst snd].
  destruct (run_phases w rank gpus dataset c (trace st))
    as (eb & ec & ep & et & Hout & Hb & Hc & Hcp & Hp & Ht & Hpc & _ & _ & Hok & _).
  assert (Hbph : Forall (in_phase Bootstrap) eb).
  { eapply Forall_prefix; [exact Hb | apply bootstrap_steps_phase]. }
  assert (Hpph : Forall (in_phase Perform) ep).
  { eapply Forall_prefix; [exact Hp | apply invocations_phase]. }
  assert (Htph : Forall (in_phase Teardown) et).
  { eapply Forall_prefix; [exact Ht | apply teardown_steps_phase]. }
  assert (Hpre : config_calls (eb ++ ec) = config_calls ec).
  { rewrite config_calls_app.
    now rewrite (@config_calls_phase Bootstrap eb) by (first [assumption | discriminate]). }
  assert (Hpost : task_names (ep ++ et) = map invoked_name ep).
  { unfold task_names. rewrite task_calls_app.
    rewrite (@task_calls_phase Teardown et) by (first [assumption | discriminate]).
    rewrite app_nil_r. f_equal. apply filter_all.
    eapply Forall_impl; [|exact Hpph]. unfold in_phase.
    intros [[]| | | | | | | | | | | | | | | | | |]; now simpl. }
  exists (eb ++ ec), (ep ++ et). rewrite Hpre, Hpost.
  split; [|split; [|split; [|split; [|split; [|split]]]]].
  - rewrite Hout. now rewrite <- app_assoc.
  - rewrite task_calls_app.
    rewrite (@task_calls_phase Bootstrap eb) by (first [assumption | discriminate]).
    now rewrite (@task_calls_phase Configure ec) by (first [assumption | discriminate]).
  - rewrite config_calls_app.
    rewrite (@config_calls_phase Perform ep) by (first [assumption | discriminate]).
    now rewrite (@config_calls_phase Teardown et) by (first [assumption | discriminate]).
  - exact Hcp.
  - rewrite <- task_names_invocations. now apply prefix_map.
  - intros Hne. apply Hpc. intros Hnil. apply Hne.
    apply app_eq_nil in Hnil. now destruct Hnil as [-> _].
  - intros Hr. destruct (Hok Hr) as (_ & -> & -> & _). split.
    + apply config_calls_section_calls.
    + apply task_names_invocations.
Qed.

(** C4, on the sample run: [train] before [evaluate], after the
    configuration calls. *)
Lemma C4_witness :
  exists pre post,
    trace (fst (run 0 [] None (Sample.config [] "cnn") Sample.calm_world
                    (init_state []))) = pre ++ post /\
    task_calls pre = [] /\
    config_calls pre =
      [ConfigureDataLoaders (VStr "run-level data") (VStr "loaders");
       ConfigureOptimizers (VStr "adam");
       ConfigureLoss (VStr "mse")] /\
    config_calls post = [] /\
    task_names post = ["train"; "evaluate"].
Proof.
  destruct (C4_tasks_in_list_order_after_configuration Sample.calm_world 0 []
              None (Sample.config [] "cnn") (init_state []))
    as (pre & post & Hf & Hpre & Hpost & _ & _ & _ & Hok).
  destruct (Hok eq_refl) as [Hc Ht].
  exists pre, post. rewrite Hf. repeat split; assumption.
Defined.

(** C5.  When the kind is neither cnn nor gnn and some description has a
    data_loaders section, every run of a worker ends by an exception and
    without a single task invocation.  The exception is the ValueError of
    the data_loaders dispatch, unless a collaborator call of the bootstrap
    or of the configuration phase raised first; when the collaborators
    return normally it is the ValueError, raised right after its message is
    printed. *)
Theorem C5_unknown_kind_with_data_loaders_is_fatal :
  forall (c : HydraConfig),
    known_kind c = false ->
    (exists t, In t (tasks c) /\ dict_contains "data_loaders" (snd t) = true) ->
    forall (w : World) (rank : nat) (gpus : list nat)
           (dataset : option Dataset) (st : State),
    exists evs e,
      run rank gpus dataset c w st = (extend st evs, Raise e) /\
      task_calls evs = [] /\
      (e = ValueError \/
       exists ev, e = Raised ev /\
                  (phase_of ev = Bootstrap \/ phase_of ev = Configure)) /\
      (quiet w ->
       e = ValueError /\
       exists head, evs = head ++ [PrintUnknownKind (kind c)]).
Proof.
  intros c Hk (t & Hin & Hdl) w rank gpus dataset st.
  assert (Hblk : existsb (fun t => blocked c (snd t)) (tasks c) = true).
  { apply existsb_exists. exists t. split; [exact Hin|].
    unfold blocked. now rewrite Hdl, Hk. }
  destruct (existsb_split _ _ Hblk) as (ts1 & t1 & ts2 & Hts & Hfree & Ht1).
  set (p1 := bootstrap_steps w rank gpus dataset c ++ configure_steps c ts1 ++
             [SEmit (PrintUnknownKind (kind c))]).
  assert (Hsteps : run_steps w rank gpus dataset c =
    p1 ++ SRaise ValueError ::
          (configure_steps c ts2 ++
           perform_steps w (map strip_task (tasks c)) ++ teardown_steps gpus)).
  { unfold run_steps, p1. rewrite Hts. unfold configure_steps.
    rewrite flat_map_app. simpl. unfold configure_task_steps at 2.
    rewrite Ht1. simpl. now rewrite <- !app_assoc. }
  assert (Hnr : existsb is_raise p1 = false).
  { unfold p1.
    rewrite !existsb_app, bootstrap_no_raise, configure_steps_raise, Hfree.
    reflexivity. }
  assert (Hph : Forall (fun ev => phase_of ev = Bootstrap \/
                                  phase_of ev = Configure) (step_events p1)).
  { unfold p1. rewrite !step_events_app, !Forall_app. repeat split.
    - eapply Forall_impl; [|apply bootstrap_steps_phase].
      intros ev Hev. now left.
    - eapply Forall_impl; [|apply configure_steps_phase].
      intros ev Hev. now right.
    - constructor; [now right | constructor]. }
  assert (Hnt : forall evs,
             Forall (fun ev => phase_of ev = Bootstrap \/
                               phase_of ev = Configure) evs ->
             task_calls evs = []).
  { intros evs H. apply filter_none. eapply Forall_impl; [|exact H].
    intros ev [Hev|Hev]; destruct ev; try reflexivity; discriminate. }
  rewrite run_outcome, Hsteps, outcome_app. cbn [outcome].
  pose proof (outcome_Forall w (trace st) p1 Hph) as Hrun.
  pose proof (@outcome_raise w (trace st) p1) as Hraise.
  pose proof (@outcome_quiet w (trace st) p1) as Hquiet.
  destruct (outcome w (trace st) p1) as [e1 [[]|e]] eqn:E; cbn [fst snd] in *.
  - apply outcome_ok_eq in E. destruct E as [-> _].
    exists (step_events p1), ValueError. rewrite app_nil_r.
    split; [reflexivity|]. split; [now apply Hnt|]. split; [now left|].
    intros _. split; [reflexivity|].
    exists (step_events (bootstrap_steps w rank gpus dataset c) ++
            step_events (configure_steps c ts1)).
    unfold p1. rewrite !step_events_app, app_assoc. reflexivity.
  - exists e1, e. split; [reflexivity|]. split; [now apply Hnt|]. split.
    + right. destruct (Hraise e eq_refl) as [(evs & ev & -> & -> & _)|Hsr].
      * exists ev. split; [reflexivity|].
        rewrite Forall_forall in Hrun. apply Hrun.
        apply in_or_app. right. now left.
      * exfalso. revert Hsr. now apply no_raise_not_in.
    + intros Hq. specialize (Hquiet Hq Hnr). discriminate.
Qed.

(** C5, on a run of kind "unknown": the first description has a
    data_loaders section. *)
Lemma C5_witness :
  exists evs e,
    run 0 [] None (Sample.config [] "unknown") Sample.calm_world (init_state []) =
      (extend (init_state []) evs, Raise e) /\
    task_calls evs = [] /\
    e = ValueError.
Proof.
  destruct (@C5_unknown_kind_with_data_loaders_is_fatal
              (Sample.config [] "unknown") eq_refl
              (ex_intro _ ("train", Sample.train_config)
                 (conj (or_introl eq_refl) eq_refl))
              Sample.calm_world 0 [] None (init_state []))
    as (evs & e & Hrun & Hnt & _ & Hq).
  exists evs, e. split; [exact Hrun|]. split; [exact Hnt|].
  exact (proj1 (Hq sample_world_quiet)).
Defined.

(** C6.  The dataset of a run is what [acquire_dataset] returns: None,
    without any call, when the kind is not gnn; the object the builder
    returns, after exactly one call of it, when the kind is gnn (and the
    exception of that call if it raises).  In every run of the controlling
    process the builder is called at most once, between the
    output-directory step and the launch, hence before any worker starts:
    never when the kind is not gnn, and once when it is gnn and the run
    gets that far.  The launch is given the value [acquire_dataset]
    returned: for at most one accelerator nothing is spawned and the run is
    that of the inline worker on this value; for n >= 2 accelerators whose
    spawn takes place, the spawned workers are exactly the n workers of
    ranks 0..n-1, each run on this same value.  A worker never calls the
    builder; it calls set_dataset, with the value it was given, only in a
    run of kind gnn, and then exactly once if its bootstrap completes. *)
Theorem C6_dataset_built_once_and_shared :
  forall (child : nat -> World) (c : HydraConfig) (w : World)
         (files : list string),
    let out := main child c w (init_state files) in
    let gpus := gpu_list c in
    (forall st, kind c <> "gnn" -> acquire_dataset c w st = (st, Ok None)) /\
    (forall st,
       kind c = "gnn" ->
       acquire_dataset c w st =
       (record (BuildDataset c) st,
        if raises w (trace st) (BuildDataset c)
        then Raise (Raised (BuildDataset c))
        else Ok (Some (built_dataset w)))) /\
    (exists before acq after,
       trace (fst out) = before ++ acq ++ after /\
       filter is_build_dataset before = [] /\
       filter is_build_dataset after = [] /\
       filter is_worker_start (before ++ acq) = [] /\
       (acq = [] \/ acq = [BuildDataset c]) /\
       (kind c <> "gnn" -> acq = []) /\
       (kind c = "gnn" -> after <> [] \/ calm w -> acq = [BuildDataset c]) /\
       (after <> [] \/ calm w ->
        exists st1 st2 dataset,
          ensure_dump_path (dump_path c) w (init_state files) = (st1, Ok tt) /\
          acquire_dataset c w st1 = (st2, Ok dataset)) /\
       (forall st1 st2 dataset,
          ensure_dump_path (dump_path c) w (init_state files) = (st1, Ok tt) ->
          acquire_dataset c w st1 = (st2, Ok dataset) ->
          trace st2 = before ++ acq /\
          after <> [] /\
          out = launch child dataset c w st2 /\
          (length gpus <= 1 ->
           spawned (fst out) = [] /\
           exists m,
             is_classification (Log m) = true /\
             out = run 0 gpus dataset c w (record (Log m) st2)) /\
          (2 <= length gpus ->
           snd out = Ok tt \/
           (exists i, snd out = Raise (ProcessRaisedException i)) \/
           quiet w ->
           spawned (fst out) =
             map (worker_outcome child dataset c (fs st2))
                 (seq 0 (length gpus))))) /\
    (forall (w' : World) (rank : nat) (gpus : list nat) (d : option Dataset)
            (st : State),
     exists evs,
       fst (run rank gpus d c w' st) = extend st evs /\
       filter is_build_dataset evs = [] /\
       (kind c <> "gnn" -> filter is_set_dataset evs = []) /\
       (kind c = "gnn" ->
        prefix (filter is_set_dataset evs) [SetDataset d] /\
        (quiet w' \/ snd (run rank gpus d c w' st) = Ok tt ->
         filter is_set_dataset evs = [SetDataset d]))).
Proof.
  intros child c w files out gpus. subst out gpus.
  split; [|split; [|split]].
  - intros st Hk. apply String.eqb_neq in Hk.
    rewrite acquire_dataset_cases. now rewrite Hk.
  - intros st Hk. apply String.eqb_eq in Hk.
    rewrite acquire_dataset_cases. now rewrite Hk.
  - unfold main, bind.
    destruct (ensure_dump_path_events (dump_path c) w (init_state files))
      as (e1 & Ht1 & Hsp1 & Hd & _).
    destruct (dir_events_quiet Hd) as [Hnb1 Hnw1].
    pose proof (@ensure_dump_path_calm (dump_path c) w (init_state files)) as Hcalm.
    cbn [trace spawned init_state app] in Ht1, Hsp1.
    destruct (ensure_dump_path (dump_path c) w (init_state files))
      as [st1 [[]|e]]; cbn [fst snd] in *.
    2:{ assert (Hnc : ~ (@nil Event <> [] \/ calm w)).
        { intros [Hne|Hc]; [now contradiction Hne|].
          destruct (Hcalm Hc) as (? & ? & ? & _). discriminate. }
        exists e1, [], []. rewrite !app_nil_r.
        split; [exact Ht1|]. split; [exact Hnb1|]. split; [reflexivity|].
        split; [exact Hnw1|]. split; [now left|]. split; [reflexivity|].
        split; [intros _ H; now contradiction Hnc|].
        split; [intros H; now contradiction Hnc|].
        intros st1' st2 dataset Heq. discriminate Heq. }
    clear Hcalm. rewrite acquire_dataset_cases.
    destruct (kind c =? "gnn") eqn:Ek.
    + pose proof (fun (Hc : calm w) =>
                    proj1 Hc (trace st1) (BuildDataset c)) as Hquiet.
      destruct (raises w (trace st1) (BuildDataset c)) eqn:Er.
      * assert (Hnc : ~ (@nil Event <> [] \/ calm w)).
        { intros [Hne|Hc]; [now contradiction Hne|].
          specialize (Hquiet Hc). discriminate. }
        exists e1, [BuildDataset c], []. cbn [fst trace spawned record].
        rewrite Ht1, filter_app, Hnw1.
        split; [reflexivity|]. split; [exact Hnb1|]. split; [reflexivity|].
        split; [reflexivity|]. split; [now right|].
        split; [intros Hk; apply String.eqb_neq in Hk; congruence|].
        split; [reflexivity|].
        split; [intros H; now contradiction Hnc|].
        intros st1' st2 dataset Heq Ha.
        pose proof (f_equal fst Heq) as Hst. cbn [fst] in Hst. subst st1'.
        rewrite acquire_dataset_cases, Ek, Er in Ha. discriminate Ha.
      * destruct (launch_events child (Some (built_dataset w)) c w
                    (record (BuildDataset c) st1)) as (m & rest & Hl & Hm & Hr).
        exists e1, [BuildDataset c], (Log m :: rest).
        rewrite Hl. cbn [trace record]. rewrite Ht1, <- app_assoc, filter_app, Hnw1.
        split; [reflexivity|]. split; [exact Hnb1|]. split.
        { cbn [filter is_build_dataset]. now apply launch_events_no_build. }
        split; [reflexivity|]. split; [now right|].
        split; [intros Hk; apply String.eqb_neq in Hk; congruence|].
        split; [reflexivity|]. split.
        { intros _. exists st1, (record (BuildDataset c) st1),
                      (Some (built_dataset w)).
          split; [reflexivity|]. now rewrite acquire_dataset_cases, Ek, Er. }
        intros st1' st2 dataset Heq Ha.
        pose proof (f_equal fst Heq) as Hst. cbn [fst] in Hst. subst st1'.
        rewrite acquire_dataset_cases, Ek, Er in Ha.
        pose proof (f_equal fst Ha) as Hst2. cbn [fst] in Hst2.
        assert (Hds : Some (built_dataset w) = dataset) by congruence.
        subst st2 dataset.
        destruct (launch_workers child (Some (built_dataset w)) c w
                    (record (BuildDataset c) st1)) as [Hin Hsp].
        cbn [spawned fs record] in Hin, Hsp. rewrite Hsp1 in Hin.
        split; [cbn [trace record]; now rewrite Ht1|].
        split; [discriminate|]. split; [reflexivity|]. split; assumption.
    + destruct (launch_events child None c w st1) as (m & rest & Hl & Hm & Hr).
      exists e1, [], (Log m :: rest).
      rewrite Hl, Ht1, app_nil_r.
      split; [reflexivity|]. split; [exact Hnb1|]. split.
      { cbn [filter is_build_dataset]. now apply launch_events_no_build. }
      split; [exact Hnw1|]. split; [now left|].
      split; [reflexivity|].
      split; [intros Hk; apply String.eqb_eq in Hk; congruence|]. split.
      { intros _. exists st1, st1, None.
        split; [reflexivity|]. now rewrite acquire_dataset_cases, Ek. }
      intros st1' st2 dataset Heq Ha.
      pose proof (f_equal fst Heq) as Hst. cbn [fst] in Hst. subst st1'.
      rewrite acquire_dataset_cases, Ek in Ha.
      pose proof (f_equal fst Ha) as Hst2. cbn [fst] in Hst2.
      assert (Hds : None = dataset) by congruence.
      subst st2 dataset.
      destruct (launch_workers child None c w st1) as [Hin Hsp].
      rewrite Hsp1 in Hin.
      split; [exact Ht1|].
      split; [discriminate|]. split; [reflexivity|]. split; assumption.
  - intros w' rank gpus d st. apply run_dataset_calls.
Qed.

(** C6, on an inline run and on a spawned run of kind gnn: the builder is
    called once, before the worker starts; each worker hands the object it
    returned to its engine; and the two spawned workers are run on that
    object. *)
Lemma C6_witness :
  (let out := main (fun _ => Sample.calm_world) (Sample.config [] "gnn")
                   Sample.calm_world (init_state []) in
   filter is_build_dataset (trace (fst out)) =
     [BuildDataset (Sample.config [] "gnn")] /\
   filter is_set_dataset (trace (fst out)) =
     [SetDataset (Some (DatasetObj 1))]) /\
  spawned (fst (main (fun _ => Sample.calm_world)
                     (Sample.config [0; 1] "gnn")
                     Sample.calm_world (init_state []))) =
  map (worker_outcome (fun _ => Sample.calm_world) (Some (DatasetObj 1))
         (Sample.config [0; 1] "gnn") ["/dump"])
      [0; 1].
Proof.
  split; [split; reflexivity|].
  destruct (@C6_dataset_built_once_and_shared (fun _ => Sample.calm_world)
              (Sample.config [0; 1] "gnn") Sample.calm_world [])
    as (_ & _ & (before & acq & after & H) & _).
  destruct H as (_ & _ & _ & _ & _ & _ & _ & _ & Hall).
  destruct (Hall
              {| trace := [PathExists "/dump" false;
                           Log (CreatingDirectory "/dump");
                           Makedirs "/dump"];
                 fs := ["/dump"]; spawned := [] |}
              {| trace := [PathExists "/dump" false;
                           Log (CreatingDirectory "/dump");
                           Makedirs "/dump";
                           BuildDataset (Sample.config [0; 1] "gnn")];
                 fs := ["/dump"]; spawned := [] |}
              (Some (DatasetObj 1)) eq_refl eq_refl)
    as (_ & _ & _ & _ & Hsp).
  apply Hsp; [cbn; lia|]. right. right. exact sample_world_quiet.
Defined.

(** C7 (as the code has it).  For a description with a data_loaders
    section, the first thing the loop body does is the data-loaders
    dispatch: for kind cnn it calls configure_data_loaders with the
    run-level data configuration and the section; for kind gnn it calls
    configure_data_loaders_v2 with the section alone. *)
Theorem C7_data_loaders_dispatch :
  forall (w : World) (c : HydraConfig) (task_config : Dict)
         (section : Value) (st : State),
    dict_get "data_loaders" task_config = Some section ->
    (kind c = "cnn" ->
     exists rest,
       fst (configure_task c task_config w st) =
         extend st (ConfigureDataLoaders (data c) section :: rest) /\
       call_args (ConfigureDataLoaders (data c) section) = [data c; section]) /\
    (kind c = "gnn" ->
     exists rest,
       fst (configure_task c task_config w st) =
         extend st (ConfigureDataLoadersV2 section :: rest) /\
       call_args (ConfigureDataLoadersV2 section) = [section]).
Proof.
  intros w c task_config section st Hget.
  destruct (implements_run_state st (implements_configure_task w c task_config))
    as [H _].
  rewrite H. unfold configure_task_steps, blocked, known_kind, section_calls,
    data_loaders_call.
  rewrite Hget. cbn [section_call app map].
  split; intros Hk; rewrite Hk; cbn [String.eqb Ascii.eqb Bool.eqb orb negb andb];
    rewrite andb_false_r; cbn [outcome];
    match goal with |- context [raises w ?h ?ev] => destruct (raises w h ev) end.
  - exists []. split; reflexivity.
  - match goal with |- context [outcome w ?h ?p] => destruct (outcome w h p) as [evs r] end.
    exists evs. split; reflexivity.
  - exists []. split; reflexivity.
  - match goal with |- context [outcome w ?h ?p] => destruct (outcome w h p) as [evs r] end.
    exists evs. split; reflexivity.
Qed.

(** C7, on the sample description, for both kinds. *)
Lemma C7_witness :
  (exists rest,
     fst (configure_task (Sample.config [] "cnn") Sample.train_config
            Sample.calm_world (init_state [])) =
     extend (init_state [])
       (ConfigureDataLoaders (VStr "run-level data") (VStr "loaders") :: rest)) /\
  (exists rest,
     fst (configure_task (Sample.config [] "gnn") Sample.train_config
            Sample.calm_world (init_state [])) =
     extend (init_state []) (ConfigureDataLoadersV2 (VStr "loaders") :: rest)).
Proof.
  split.
  - destruct (proj1 (@C7_data_loaders_dispatch Sample.calm_world
                       (Sample.config [] "cnn") Sample.train_config
                       (VStr "loaders") (init_state []) eq_refl) eq_refl)
      as (rest & H & _).
    exists rest. exact H.
  - destruct (proj2 (@C7_data_loaders_dispatch Sample.calm_world
                       (Sample.config [] "gnn") Sample.train_config
                       (VStr "loaders") (init_state []) eq_refl) eq_refl)
      as (rest & H & _).
    exists rest. exact H.
Defined.

(** C7 fails as stated: in a run of kind gnn the data-loaders entry point
    is called with the section alone, and no call of the configuration of
    the task receives the run-level data configuration. *)
Lemma C7_counterexample :
  let c := Sample.config [] "gnn" in
  let out := configure_task c Sample.train_config Sample.calm_world
                            (init_state []) in
  dict_contains "data_loaders" Sample.train_config = true /\
  trace (fst out) =
    [ConfigureDataLoadersV2 (VStr "loaders");
     ConfigureOptimizers (VStr "adam");
     ConfigureLoss (VStr "mse")] /\
  ~ (exists ev, In ev (trace (fst out)) /\ In (data c) (call_args ev)).
Proof.
  cbv zeta. split; [reflexivity|]. split; [reflexivity|].
  intros (ev & Hin & Harg).
  change (trace (fst (configure_task (Sample.config [] "gnn")
            Sample.train_config Sample.calm_world (init_state []))))
    with [ConfigureDataLoadersV2 (VStr "loaders");
          ConfigureOptimizers (VStr "adam");
          ConfigureLoss (VStr "mse")] in Hin.
  simpl in Hin. destruct Hin as [<-|[<-|[<-|[]]]]; simpl in Harg;
    destruct Harg as [Harg|[]]; discriminate.
Qed.




(** C9 (as the code has it).  The output-directory step is idempotent: when
    the directory exists at the existence check, nothing is created and the
    step succeeds; when it is absent at the check and still absent at the
    creation call, it is created (unless the creation call itself fails);
    and after a successful step the directory exists.  The step is not
    race-tolerant: when another process creates the directory between the
    check and the creation call, the creation call raises
    FileExistsError. *)
Theorem C9_output_directory_idempotent_not_race_tolerant :
  forall (p : string) (w : World) (st : State),
    let files := fs st ++ concurrent w (trace st) in
    let h := (trace st ++ [PathExists p false]) ++ [Log (CreatingDirectory p)] in
    (mem p files = true ->
     ensure_dump_path p w st =
       ({| trace := trace st ++ [PathExists p true]; fs := files;
           spawned := spawned st |}, Ok tt)) /\
    (mem p files = false -> mem p (concurrent w h) = false ->
     raises w h (Makedirs p) = false ->
     exists st', ensure_dump_path p w st = (st', Ok tt) /\
                 trace st' = h ++ [Makedirs p]) /\
    (mem p files = false -> mem p (concurrent w h) = true ->
     exists st', ensure_dump_path p w st = (st', Raise (FileExistsError p)) /\
                 trace st' = h ++ [Makedirs p]) /\
    (snd (ensure_dump_path p w st) = Ok tt ->
     mem p (fs (fst (ensure_dump_path p w st))) = true).
Proof.
  intros p w st files h. rewrite ensure_dump_path_cases. cbv zeta.
  fold files. fold h. rewrite mem_app.
  split; [|split; [|split]].
  - intros ->. reflexivity.
  - intros -> -> ->. cbn [orb]. eexists. split; reflexivity.
  - intros -> ->. cbn [orb]. eexists. split; reflexivity.
  - destruct (mem p files) eqn:E1; [intros _; exact E1|].
    destruct (mem p (concurrent w h)); cbn [orb]; [discriminate|].
    destruct (raises w h (Makedirs p)); [discriminate|].
    intros _. cbn [fst fs]. apply mem_last.
Qed.

(** C9, on an output directory that exists. *)
Lemma C9_witness :
  ensure_dump_path "/dump" Sample.calm_world (init_state ["/dump"]) =
  ({| trace := [PathExists "/dump" true]; fs := ["/dump"]; spawned := [] |},
   Ok tt).
Proof.
  exact (proj1 (C9_output_directory_idempotent_not_race_tolerant "/dump"
                  Sample.calm_world (init_state ["/dump"])) eq_refl).
Defined.

(** C9 fails as stated: the directory is absent when the coordinator
    looks for it, another launch creates it before the coordinator's
    creation call, and the coordinator fails. *)
Lemma C9_counterexample :
  mem "/dump" (fs (init_state [])) = false /\
  concurrent Sample.racing_world
    [PathExists "/dump" false; Log (CreatingDirectory "/dump")] = ["/dump"] /\
  snd (ensure_dump_path "/dump" Sample.racing_world (init_state [])) =
    Raise (FileExistsError "/dump") /\
  snd (main (fun _ => Sample.calm_world) (Sample.config [] "cnn")
            Sample.racing_world (init_state [])) =
    Raise (FileExistsError "/dump").
Proof. repeat split; reflexivity. Qed.

(** C10.  When the kind is neither cnn nor gnn and no description has a
    data_loaders section, the controlling process and every worker do
    exactly what they do for kind cnn, in every world: the dataset is None,
    set_dataset is never called, no ValueError is raised, and with
    collaborators that return normally and an engine that has the tasks the
    worker runs to completion. *)
Theorem C10_unknown_kind_without_data_loaders_goes_undetected :
  forall (c : HydraConfig),
    known_kind c = false ->
    no_data_loaders (tasks c) ->
    (forall child w st,
       main child c w st = main child (set_kind "cnn" c) w st) /\
    (forall rank gpus d w st,
       run rank gpus d c w st = run rank gpus d (set_kind "cnn" c) w st) /\
    (forall w st, acquire_dataset c w st = (st, Ok None)) /\
    (forall rank gpus d w st,
       snd (run rank gpus d c w st) <> Raise ValueError /\
       exists evs, fst (run rank gpus d c w st) = extend st evs /\
                   filter is_set_dataset evs = []) /\
    (forall rank gpus d w st,
       quiet w ->
       (forall t, In t (tasks c) -> hasattr w (fst t) = true) ->
       snd (run rank gpus d c w st) = Ok tt).
Proof.
  intros c Hk Hnl.
  assert (Hgnn : (kind c =? "gnn") = false).
  { unfold known_kind in Hk. apply orb_false_iff in Hk. tauto. }
  assert (Hrun : forall rank gpus d w st,
             run rank gpus d c w st = run rank gpus d (set_kind "cnn" c) w st).
  { intros. rewrite !run_outcome. now rewrite <- run_steps_unknown_kind. }
  assert (Hacq : forall w st, acquire_dataset c w st = (st, Ok None)).
  { intros. rewrite acquire_dataset_cases. now rewrite Hgnn. }
  split; [|split; [exact Hrun|split; [exact Hacq|split]]].
  - intros child w st. unfold main, bind. cbn [set_kind dump_path].
    destruct (ensure_dump_path (dump_path c) w st) as [st1 [[]|e]];
      [|reflexivity].
    rewrite Hacq, acquire_dataset_cases. cbn [set_kind kind String.eqb Ascii.eqb Bool.eqb].
    unfold launch. cbn [set_kind gpu_list].
    destruct (length (gpu_list c) =? 0)%nat; [|destruct (length (gpu_list c) =? 1)%nat].
    + unfold bind, emit. apply Hrun.
    + unfold bind, emit. apply Hrun.
    + unfold bind, emit, call.
      destruct (raises w _ ConfigureLog); [reflexivity|].
      apply mp_spawn_ext. intros i w' st'. apply Hrun.
  - intros rank gpus d w st. split.
    + rewrite run_outcome. cbn [snd]. intros Hr.
      apply outcome_raise in Hr.
      destruct Hr as [(evs & ev & _ & Hev & _)|Hin]; [discriminate|].
      unfold run_steps in Hin.
      apply in_app_or in Hin. destruct Hin as [Hin|Hin].
      { revert Hin. apply no_raise_not_in, bootstrap_no_raise. }
      apply in_app_or in Hin. destruct Hin as [Hin|Hin].
      { revert Hin. now apply no_raise_not_in, configure_steps_no_loaders_no_raise. }
      apply in_app_or in Hin. destruct Hin as [Hin|Hin].
      { apply perform_steps_raise in Hin. destruct Hin as [name Hn]. discriminate. }
      unfold teardown_steps in Hin.
      destruct (multi gpus); [destruct Hin as [Hin|[]]; discriminate | destruct Hin].
    + destruct (run_dataset_calls w rank gpus d c st) as (evs & He & _ & Hs & _).
      exists evs. split; [exact He|]. apply Hs. now apply String.eqb_neq.
  - intros rank gpus d w st Hq Hattr. rewrite run_outcome. cbn [snd].
    rewrite outcome_quiet; [reflexivity | exact Hq |].
    unfold run_steps. rewrite !existsb_app, bootstrap_no_raise.
    rewrite configure_steps_no_loaders_no_raise by assumption.
    rewrite perform_steps_available.
    2:{ intros t Ht. apply in_map_iff in Ht. destruct Ht as (t0 & <- & Ht0).
        cbn [strip_task fst]. now apply Hattr. }
    rewrite no_raise_calls. unfold teardown_steps. now destruct (multi gpus).
Qed.

(** C10, on a run of kind "unknown" without data_loaders sections. *)
Lemma C10_witness :
  run 0 [] None (Sample.config_without_loaders [] "unknown")
      Sample.calm_world (init_state []) =
  run 0 [] None (Sample.config_without_loaders [] "cnn")
      Sample.calm_world (init_state []) /\
  snd (run 0 [] None (Sample.config_without_loaders [] "unknown")
           Sample.calm_world (init_state [])) = Ok tt.
Proof.
  assert (Hnl : no_data_loaders
                  (tasks (Sample.config_without_loaders [] "unknown"))).
  { intros t [<-|[<-|[]]]; reflexivity. }
  destruct (@C10_unknown_kind_without_data_loaders_goes_undetected
              (Sample.config_without_loaders [] "unknown") eq_refl Hnl)
    as (_ & Hrun & _ & _ & Hok).
  split.
  - exact (Hrun 0 [] None Sample.calm_world (init_state [])).
  - apply Hok; [exact sample_world_quiet|]. intros t _. reflexivity.
Defined.

(** * Further properties *)

(** ** Helper lemmas *)


Lemma bootstrap_events_steps w rank gpus dataset c :
  step_events (bootstrap_steps w rank gpus dataset c) =
  bootstrap_events w rank gpus dataset c.
Proof.
  unfold bootstrap_steps, bootstrap_events, ddp_events.
  destruct (multi gpus), (kind c =? "gnn"); reflexivity.
Qed.

Lemma rest_steps_after_bootstrap w c gpus :
  Forall after_bootstrap
    (step_events (configure_steps c (tasks c) ++
                  perform_steps w (map strip_task (tasks c)) ++
                  teardown_steps gpus)).
Proof.
  rewrite !step_events_app, !Forall_app. repeat split.
  - eapply Forall_impl; [|apply configure_steps_phase].
    intros ev Hev. now left.
  - eapply Forall_impl; [|apply perform_steps_phase].
    intros ev Hev. right. now left.
  - eapply Forall_impl; [|apply teardown_steps_phase].
    intros ev Hev. right. now right.
Qed.

Lemma after_bootstrap_no_process_group evs :
  Forall after_bootstrap evs -> filter is_process_group evs = [].
Proof.
  intros H. apply filter_none. eapply Forall_impl; [|exact H].
  intros ev [Hev|[Hev|Hev]];
    destruct ev as [[]| | | | | | | | | | | | | | | | | |];
    try reflexivity; discriminate.
Qed.

Lemma multi_accelerated gpus : multi gpus = true -> gpus <> [].
Proof. unfold multi. now destruct gpus. Qed.

(** The statements of a worker after [ddp_setup]. *)
Lemma run_steps_multi w rank gpus dataset c :
  multi gpus = true ->
  run_steps w rank gpus dataset c =
  [SEmit (Log (RunningWorker rank (DevIndex rank)));
   SEmit (Setenv "MASTER_ADDR" "localhost");
   SEmit (Setenv "MASTER_PORT" "12355")] ++
  SCall (InitProcessGroup "nccl" "env://" rank (length gpus)) ::
  SCall (BuildModel (model c) (DevIndex rank) true) ::
  (SCall (Instantiate (engine c) (getcwd w ++ "/") rank (DevIndex rank)) ::
   (if kind c =? "gnn" then [SCall (SetDataset dataset)] else [])) ++
  configure_steps c (tasks c) ++
  perform_steps w (map strip_task (tasks c)) ++
  teardown_steps gpus.
Proof.
  intros Hm. unfold run_steps, bootstrap_steps.
  rewrite (resolve_device_accelerated rank (multi_accelerated Hm)), Hm.
  rewrite <- !app_assoc. reflexivity.
Qed.

Lemma run_steps_single w rank gpus dataset c :
  multi gpus = false ->
  Forall (fun ev => is_process_group ev = false /\ uses_ddp ev = false /\
                    is_teardown ev = false)
         (step_events (run_steps w rank gpus dataset c)).
Proof.
  intros Hm. unfold run_steps, bootstrap_steps, teardown_steps. rewrite Hm.
  rewrite !step_events_app, !Forall_app. repeat split.
  - repeat constructor.
  - constructor.
  - repeat constructor.
  - destruct (kind c =? "gnn"); repeat constructor.
  - eapply Forall_impl; [|apply configure_steps_phase].
    unfold in_phase.
    intros [[]| | | | | | | | | | | | | | | | | |]; now simpl.
  - eapply Forall_impl; [|apply perform_steps_phase].
    unfold in_phase.
    intros [[]| | | | | | | | | | | | | | | | | |]; now simpl.
  - constructor.
Qed.

(** X1.  A worker sets up the process group only in a run on more than one
    accelerator; it then does so as its first action after announcing
    itself, with the fixed rendezvous address and port, its own rank and
    the length of the accelerator list as world size, and never again.
    When the initialisation raises, the worker stops there, before any
    model is built; otherwise the next thing it does is to build its model
    on device [rank] with [use_dpp] set.  A worker of a run on at most one
    accelerator touches neither the environment nor the process group and
    builds its model with [use_dpp] unset. *)
Theorem X1_process_group_setup :
  forall (w : World) (rank : nat) (gpus : list nat)
         (dataset : option Dataset) (c : HydraConfig) (st : State),
  exists evs,
    fst (run rank gpus dataset c w st) = extend st evs /\
    (multi gpus = false ->
     filter is_process_group evs = [] /\ filter uses_ddp evs = []) /\
    (multi gpus = true ->
     let announcement := Log (RunningWorker rank (DevIndex rank)) in
     let init := InitProcessGroup "nccl" "env://" rank (length gpus) in
     let h := trace st ++
              [announcement; Setenv "MASTER_ADDR" "localhost";
               Setenv "MASTER_PORT" "12355"] in
     exists rest,
       evs = announcement :: ddp_events rank (length gpus) ++ rest /\
       filter is_process_group rest = [] /\
       (raises w h init = true ->
        rest = [] /\
        snd (run rank gpus dataset c w st) = Raise (Raised init)) /\
       (raises w h init = false ->
        exists rest',
          rest = BuildModel (model c) (DevIndex rank) true :: rest')).
Proof.
  intros w rank gpus dataset c st. rewrite run_outcome. cbn [fst snd].
  exists (fst (outcome w (trace st) (run_steps w rank gpus dataset c))).
  split; [reflexivity|]. split.
  - intros Hm.
    pose proof (outcome_Forall w (trace st) _ (run_steps_single w rank gpus dataset c Hm))
      as HF.
    split; apply filter_none; (eapply Forall_impl; [|exact HF]);
      intros ev (H1 & H2 & H3); assumption.
  - intros Hm. cbv zeta. rewrite (run_steps_multi w rank gpus dataset c Hm).
    set (restp := (SCall (Instantiate (engine c) (getcwd w ++ "/") rank
                            (DevIndex rank)) :: _) ++ _).
    assert (HF : Forall (fun ev => is_process_group ev = false)
                        (step_events restp)).
    { unfold restp. rewrite step_events_app, Forall_app. split.
      - destruct (kind c =? "gnn"); repeat constructor.
      - eapply Forall_impl; [|apply rest_steps_after_bootstrap].
        intros ev [Hev|[Hev|Hev]];
          destruct ev as [[]| | | | | | | | | | | | | | | | | |];
          try reflexivity; discriminate. }
    rewrite outcome_app. cbn [outcome app].
    set (h := trace st ++ _).
    set (init := InitProcessGroup "nccl" "env://" rank (length gpus)).
    destruct (raises w h init).
    + exists []. cbn [fst snd]. repeat split; auto; discriminate.
    + destruct (raises w (h ++ [init]) (BuildModel (model c) (DevIndex rank) true)).
      * exists [BuildModel (model c) (DevIndex rank) true]. cbn [fst snd app].
        repeat split; auto; try discriminate. now eexists.
      * pose proof (outcome_Forall w
                      ((h ++ [init]) ++ [BuildModel (model c) (DevIndex rank) true])
                      restp HF) as HF'.
        destruct (outcome w _ restp) as [evs r]. cbn [fst snd app] in *.
        exists (BuildModel (model c) (DevIndex rank) true :: evs).
        split; [reflexivity|]. split.
        -- cbn [filter is_process_group]. now apply filter_none.
        -- split; [discriminate|]. intros _. now eexists.
Qed.

(** X1, on a worker of a run on two accelerators whose
    [init_process_group] raises. *)
Lemma X1_witness :
  run 1 [0; 1] None (Sample.config [0; 1] "cnn")
      MoreSamples.failing_init_world (init_state []) =
  ({| trace := [Log (RunningWorker 1 (DevIndex 1));
                Setenv "MASTER_ADDR" "localhost";
                Setenv "MASTER_PORT" "12355";
                InitProcessGroup "nccl" "env://" 1 2];
      fs := []; spawned := [] |},
   Raise (Raised (InitProcessGroup "nccl" "env://" 1 2))).
Proof.
  destruct (X1_process_group_setup MoreSamples.failing_init_world 1 [0; 1]
              None (Sample.config [0; 1] "cnn") (init_state []))
    as (evs & Hf & _ & Hm).
  destruct (Hm eq_refl) as (rest & Hevs & _ & Hraise & _).
  destruct (Hraise eq_refl) as [-> Hr].
  rewrite (surjective_pairing (run _ _ _ _ _ _)), Hf, Hr, Hevs. reflexivity.
Defined.

(** X2.  A worker does its bootstrap in a fixed order: announcement,
    process group (more than one accelerator), model, engine (on the
    working directory followed by a slash), dataset (kind gnn).  Either a
    collaborator call of the bootstrap raises, and the worker stops at that
    call; or the whole bootstrap is done before the first statement of the
    two loops, and nothing of the bootstrap is done again. *)
Theorem X2_bootstrap_precedes_the_loops :
  forall (w : World) (rank : nat) (gpus : list nat)
         (dataset : option Dataset) (c : HydraConfig) (st : State),
    let boot := bootstrap_events w rank gpus dataset c in
    exists evs,
      fst (run rank gpus dataset c w st) = extend st evs /\
      ((prefix evs boot /\
        exists evs' ev,
          evs = evs' ++ [ev] /\
          snd (run rank gpus dataset c w st) = Raise (Raised ev)) \/
       (exists later, evs = boot ++ later /\ Forall after_bootstrap later)).
Proof.
  intros w rank gpus dataset c st boot. rewrite run_outcome. cbn [fst snd].
  exists (fst (outcome w (trace st) (run_steps w rank gpus dataset c))).
  split; [reflexivity|]. unfold run_steps. rewrite outcome_app.
  pose proof (outcome_is_prefix w (trace st)
                (bootstrap_steps w rank gpus dataset c)) as Hpre.
  pose proof (@outcome_raise w (trace st)
                (bootstrap_steps w rank gpus dataset c)) as Hraise.
  rewrite bootstrap_events_steps in Hpre. fold boot in Hpre.
  destruct (outcome w (trace st) (bootstrap_steps w rank gpus dataset c))
    as [e1 [[]|e]] eqn:E; cbn [fst snd] in *.
  - right. apply outcome_ok_eq in E. destruct E as [-> _].
    rewrite bootstrap_events_steps. fold boot.
    pose proof (outcome_Forall w (trace st ++ boot) _
                  (rest_steps_after_bootstrap w c gpus)) as HF.
    destruct (outcome w (trace st ++ boot) _) as [e2 r]. cbn [fst snd] in *.
    now exists e2.
  - left. split; [exact Hpre|].
    destruct (Hraise e eq_refl) as [(evs' & ev & -> & -> & _)|Hin].
    + now exists evs', ev.
    + exfalso. revert Hin. apply no_raise_not_in, bootstrap_no_raise.
Qed.

Lemma coordinator_events_plain c evs :
  Forall (fun ev => is_dir_event (dump_path c) ev \/ ev = BuildDataset c) evs ->
  Forall (fun ev => is_process_group ev = false /\ uses_ddp ev = false /\
                    is_teardown ev = false) evs.
Proof.
  intros H. eapply Forall_impl; [|exact H].
  intros ev [Hev| ->]; [|repeat split].
  destruct ev as [[]| | | | | | | | | | | | | | | | | |];
    cbn in Hev; try contradiction; repeat split.
Qed.

(** X3.  With an empty accelerator list and a calm controlling process,
    nothing is spawned: the controlling process itself runs the single
    worker, with rank 0 on device cpu; the model is built without
    [use_dpp], and neither the environment, nor a process group, nor the
    teardown is touched. *)
Theorem X3_empty_accelerator_list_runs_on_cpu :
  forall (child : nat -> World) (c : HydraConfig) (w : World)
         (files : list string),
    calm w ->
    gpu_list c = [] ->
    let out := main child c w (init_state files) in
    spawned (fst out) = [] /\
    announced (trace (fst out)) = [(0, DevCpu)] /\
    Forall (bound_to 0 DevCpu) (trace (fst out)) /\
    filter is_process_group (trace (fst out)) = [] /\
    filter uses_ddp (trace (fst out)) = [] /\
    filter is_teardown (trace (fst out)) = [] /\
    exists st', out = run 0 [] (shared_dataset w c) c w st'.
Proof.
  intros child c w files Hcalm Hgpus out. subst out.
  destruct (main_calm child c (init_state files) Hcalm)
    as (evs & files' & Hmain & Hevs).
  rewrite Hmain. cbn [trace spawned init_state app].
  destruct (launch_inline child (shared_dataset w c) c w
              {| trace := evs; fs := files'; spawned := [] |})
    as (m & _ & Hrun); [rewrite Hgpus; cbn; lia|].
  rewrite launch_cases. cbv zeta. rewrite Hgpus. cbn [length fst trace spawned extend].
  destruct (run_bound w 0 [] (shared_dataset w c) c (evs ++ [Log GpuListEmpty]))
    as (_ & Ha & Hb).
  cbn [resolve_device length Nat.eqb] in Ha, Hb.
  destruct (coordinator_events_unbound 0 DevCpu Hevs) as [Ha0 Hb0].
  pose proof (coordinator_events_plain Hevs) as Hp0.
  pose proof (outcome_Forall w (evs ++ [Log GpuListEmpty]) _
                (run_steps_single w 0 [] (shared_dataset w c) c eq_refl)) as Hp.
  set (o := outcome w (evs ++ [Log GpuListEmpty])
                    (run_steps w 0 [] (shared_dataset w c) c)) in *.
  assert (Hall : Forall (fun ev => is_process_group ev = false /\
                                   uses_ddp ev = false /\
                                   is_teardown ev = false)
                        (evs ++ Log GpuListEmpty :: fst o)).
  { apply Forall_app. split; [exact Hp0|]. constructor; [now repeat split|exact Hp]. }
  split; [reflexivity|]. split; [|split; [|split; [|split; [|split]]]].
  - change (Log GpuListEmpty :: fst o) with ([Log GpuListEmpty] ++ fst o).
    now rewrite !announced_app, Ha0, Ha.
  - apply Forall_app. split; [exact Hb0|]. constructor; [exact I | exact Hb].
  - apply filter_none. eapply Forall_impl; [|exact Hall]. now intros ev (H & _).
  - apply filter_none. eapply Forall_impl; [|exact Hall]. now intros ev (_ & H & _).
  - apply filter_none. eapply Forall_impl; [|exact Hall]. now intros ev (_ & _ & H).
  - rewrite Hgpus in Hrun. eexists. rewrite <- Hrun, launch_cases. cbv zeta.
    rewrite Hgpus. reflexivity.
Qed.

(** X3, on the sample run of kind cnn without accelerators. *)
Lemma X3_witness :
  announced (trace (fst (main (fun _ => Sample.calm_world)
                              (Sample.config [] "cnn")
                              Sample.calm_world (init_state [])))) =
  [(0, DevCpu)].
Proof.
  exact (proj1 (proj2
    (@X3_empty_accelerator_list_runs_on_cpu (fun _ => Sample.calm_world)
       (Sample.config [] "cnn") Sample.calm_world []
       (conj sample_world_quiet (fun _ => eq_refl)) eq_refl))).
Defined.






Lemma perform_steps_app w ts1 ts2 :
  perform_steps w (ts1 ++ ts2) = perform_steps w ts1 ++ perform_steps w ts2.
Proof. unfold perform_steps. apply flat_map_app. Qed.

Lemma configure_steps_app c ts1 ts2 :
  configure_steps c (ts1 ++ ts2) = configure_steps c ts1 ++ configure_steps c ts2.
Proof. unfold configure_steps. apply flat_map_app. Qed.

Lemma configure_steps_unblocked c ts :
  known_kind c = true \/ no_data_loaders ts ->
  configure_steps c ts = map SCall (all_section_calls c ts).
Proof.
  intros [Hk|Hn]; [now apply configure_steps_known|].
  apply configure_steps_complete. now apply configure_steps_no_loaders_no_raise.
Qed.

(** X5.  A task name the engine has no method for is found out late.  With
    collaborators that return normally and a run whose data_loaders
    sections can be dispatched, the worker does its bootstrap, makes the
    configuration calls of all tasks, the one of the unknown name and those
    after it included, runs every task listed before the unknown name with
    its stripped description, and only then ends by the AttributeError of
    that name; the tasks listed after it are not run and the process group
    is not destroyed. *)
Theorem X5_missing_engine_method :
  forall (w : World) (rank : nat) (gpus : list nat)
         (dataset : option Dataset) (c : HydraConfig) (st : State)
         (ts1 ts2 : list (string * Dict)) (t : string * Dict),
    quiet w ->
    known_kind c = true \/ no_data_loaders (tasks c) ->
    tasks c = ts1 ++ t :: ts2 ->
    (forall t', In t' ts1 -> hasattr w (fst t') = true) ->
    hasattr w (fst t) = false ->
    run rank gpus dataset c w st =
    (extend st (bootstrap_events w rank gpus dataset c ++
                all_section_calls c (tasks c) ++
                map task_call (map strip_task ts1)),
     Raise (AttributeError (fst t))).
Proof.
  intros w rank gpus dataset c st ts1 ts2 t Hq Hub Hts Hav Hmiss.
  assert (Hperf : perform_steps w (map strip_task (tasks c)) =
                  map SCall (map task_call (map strip_task ts1)) ++
                  SRaise (AttributeError (fst t)) ::
                  perform_steps w (map strip_task ts2)).
  { rewrite Hts, map_app, perform_steps_app. cbn [map].
    rewrite perform_steps_available.
    - f_equal. unfold perform_steps at 1. cbn [flat_map].
      unfold perform_task_steps at 1. cbn [strip_task fst]. now rewrite Hmiss.
    - intros t' Hin. apply in_map_iff in Hin.
      destruct Hin as (t0 & <- & Hin). cbn [strip_task fst]. now apply Hav. }
  rewrite run_outcome. unfold run_steps.
  rewrite Hperf, (@configure_steps_unblocked c (tasks c) Hub).
  set (boot := bootstrap_steps w rank gpus dataset c).
  set (conf := map SCall (all_section_calls c (tasks c))).
  set (perf := map SCall (map task_call (map strip_task ts1))).
  set (q := perform_steps w (map strip_task ts2)).
  replace (boot ++ conf ++ (perf ++ SRaise (AttributeError (fst t)) :: q) ++
           teardown_steps gpus)
    with ((boot ++ conf ++ perf) ++
          SRaise (AttributeError (fst t)) :: (q ++ teardown_steps gpus))
    by (now rewrite <- !app_assoc).
  rewrite outcome_quiet_raise; [|exact Hq|].
  - cbn [fst snd]. subst boot conf perf.
    now rewrite !step_events_app, bootstrap_events_steps, !step_events_calls.
  - subst boot conf perf.
    now rewrite !existsb_app, bootstrap_no_raise, !no_raise_calls.
Qed.

(** X5, on a run whose engine has [train] and no [evaluate]: the training
    is done before the missing method is found out. *)
Lemma X5_witness :
  run 0 [] None (Sample.config [] "cnn") MoreSamples.no_evaluate_world
      (init_state []) =
  ({| trace := [Log (RunningWorker 0 DevCpu);
                BuildModel (VStr "resnet") DevCpu false;
                Instantiate (VStr "classifier") "/outputs/run/" 0 DevCpu;
                ConfigureDataLoaders (VStr "run-level data") (VStr "loaders");
                ConfigureOptimizers (VStr "adam");
                ConfigureLoss (VStr "mse");
                TaskCall "train" [("epochs", VInt 8)]];
      fs := []; spawned := [] |},
   Raise (AttributeError "evaluate")).
Proof.
  refine (@X5_missing_engine_method MoreSamples.no_evaluate_world 0 [] None
            (Sample.config [] "cnn") (init_state [])
            [("train", Sample.train_config)] []
            ("evaluate", [("report", VBool true)])
            (fun _ _ => eq_refl) (or_introl eq_refl) eq_refl _ eq_refl).
  intros t' [<-|[]]. reflexivity.
Defined.

(** X6.  The unknown kind is found out at the first description that has a
    data_loaders section, not before.  With collaborators that return
    normally, a kind that is neither cnn nor gnn and a task list whose
    first description with a data_loaders section is that of [t], the
    worker does its bootstrap, makes the configuration calls of the tasks
    listed before [t], prints the message and ends by ValueError: no
    section of [t] or of a later task is applied and no task is run. *)
Theorem X6_unknown_kind_found_at_first_data_loaders :
  forall (w : World) (rank : nat) (gpus : list nat)
         (dataset : option Dataset) (c : HydraConfig) (st : State)
         (ts1 ts2 : list (string * Dict)) (t : string * Dict),
    quiet w ->
    known_kind c = false ->
    tasks c = ts1 ++ t :: ts2 ->
    no_data_loaders ts1 ->
    dict_contains "data_loaders" (snd t) = true ->
    run rank gpus dataset c w st =
    (extend st (bootstrap_events w rank gpus dataset c ++
                all_section_calls c ts1 ++
                [PrintUnknownKind (kind c)]),
     Raise ValueError).
Proof.
  intros w rank gpus dataset c st ts1 ts2 t Hq Hk Hts Hn Hdl.
  assert (Hconf : configure_steps c (tasks c) =
                  map SCall (all_section_calls c ts1) ++
                  SEmit (PrintUnknownKind (kind c)) :: SRaise ValueError ::
                  configure_steps c ts2).
  { rewrite Hts, configure_steps_app.
    rewrite (@configure_steps_unblocked c ts1 (or_intror Hn)). f_equal.
    unfold configure_steps at 1. cbn [flat_map].
    unfold configure_task_steps at 1, blocked. now rewrite Hdl, Hk. }
  rewrite run_outcome. unfold run_steps. rewrite Hconf.
  set (boot := bootstrap_steps w rank gpus dataset c).
  set (conf := map SCall (all_section_calls c ts1)).
  set (q := configure_steps c ts2).
  set (rest := perform_steps w (map strip_task (tasks c)) ++ teardown_steps gpus).
  replace (boot ++ (conf ++ SEmit (PrintUnknownKind (kind c)) ::
                            SRaise ValueError :: q) ++ rest)
    with ((boot ++ conf ++ [SEmit (PrintUnknownKind (kind c))]) ++
          SRaise ValueError :: (q ++ rest))
    by (now rewrite <- !app_assoc).
  rewrite outcome_quiet_raise; [|exact Hq|].
  - cbn [fst snd]. subst boot conf.
    now rewrite !step_events_app, bootstrap_events_steps, step_events_calls.
  - subst boot conf.
    now rewrite !existsb_app, bootstrap_no_raise, no_raise_calls.
Qed.

(** X6, on a run of unknown kind whose second task is the first with a
    data_loaders section: the optimizers of the first task are configured
    before the kind is found out. *)
Lemma X6_witness :
  run 0 [] None (MoreSamples.late_loaders_config "unknown")
      Sample.calm_world (init_state []) =
  ({| trace := [Log (RunningWorker 0 DevCpu);
                BuildModel (VStr "resnet") DevCpu false;
                Instantiate (VStr "classifier") "/outputs/run/" 0 DevCpu;
                ConfigureOptimizers (VStr "adam");
                PrintUnknownKind "unknown"];
      fs := []; spawned := [] |},
   Raise ValueError).
Proof.
  refine (@X6_unknown_kind_found_at_first_data_loaders Sample.calm_world 0 []
            None (MoreSamples.late_loaders_config "unknown") (init_state [])
            [("train", [("optimizers", VStr "adam"); ("epochs", VInt 8)])] []
            ("evaluate", [("loss", VStr "mse"); ("data_loaders", VStr "loaders")])
            sample_world_quiet eq_refl eq_refl _ eq_refl).
  intros t' [<-|[]]. reflexivity.
Defined.

Lemma configure_steps_ext c c' ts :
  kind c = kind c' -> data c = data c' ->
  configure_steps c ts = configure_steps c' ts.
Proof.
  intros Hk Hd.
  unfold configure_steps, configure_task_steps, blocked, known_kind,
    section_calls, data_loaders_call.
  now rewrite Hk, Hd.
Qed.

Lemma bootstrap_steps_ext w rank gpus gpus' dataset c c' :
  length gpus = length gpus' ->
  kind c = kind c' -> model c = model c' -> engine c = engine c' ->
  bootstrap_steps w rank gpus dataset c = bootstrap_steps w rank gpus' dataset c'.
Proof.
  intros Hl Hk Hm He. unfold bootstrap_steps, resolve_device, multi.
  now rewrite Hl, Hk, Hm, He.
Qed.

(** X7.  What a worker reads of its inputs.  Of the accelerator list a
    worker uses the length only, and of the configuration the kind, the
    data, the model, the engine and the tasks: two runs that agree on
    these do the same and end the same, whatever identifiers the lists
    hold and whatever the output directory of the run is. *)
Theorem X7_worker_reads_length_of_accelerator_list :
  forall (w : World) (rank : nat) (gpus gpus' : list nat)
         (dataset : option Dataset) (c c' : HydraConfig) (st : State),
    length gpus = length gpus' ->
    kind c = kind c' ->
    data c = data c' ->
    model c = model c' ->
    engine c = engine c' ->
    tasks c = tasks c' ->
    run rank gpus dataset c w st = run rank gpus' dataset c' w st.
Proof.
  intros w rank gpus gpus' dataset c c' st Hl Hk Hd Hm He Ht.
  rewrite !run_outcome. unfold run_steps, teardown_steps, multi.
  rewrite (bootstrap_steps_ext w rank gpus gpus' dataset c c' Hl Hk Hm He).
  rewrite (configure_steps_ext c c' (tasks c) Hk Hd).
  now rewrite Hl, Ht.
Qed.

(** X7, on two runs that differ in the identifiers and in the accelerator
    list of the configuration. *)
Lemma X7_witness :
  run 1 [0; 1] None (Sample.config [0; 1] "cnn") Sample.failing_train_world
      (init_state []) =
  run 1 [7; 3] None (Sample.config [] "cnn") Sample.failing_train_world
      (init_state []).
Proof.
  exact (@X7_worker_reads_length_of_accelerator_list
           Sample.failing_train_world 1 [0; 1] [7; 3] None
           (Sample.config [0; 1] "cnn") (Sample.config [] "cnn")
           (init_state []) eq_refl eq_refl eq_refl eq_refl eq_refl eq_refl).
Defined.

Lemma configure_steps_set_data v c ts :
  kind c <> "cnn" \/ no_data_loaders ts ->
  configure_steps (set_data v c) ts = configure_steps c ts.
Proof.
  intros [Hk|Hn]; [|now apply configure_steps_no_loaders].
  apply String.eqb_neq in Hk.
  unfold configure_steps, configure_task_steps, blocked, known_kind,
    section_calls, data_loaders_call.
  cbn [set_data kind data]. now rewrite Hk.
Qed.

(** X8.  When the worker uses the dataset and the data configuration.  In
    a run whose kind is not gnn the dataset given to the worker is not
    used: any two datasets give the same run.  In a run whose kind is not
    cnn, or none of whose descriptions has a data_loaders section, the
    data configuration is not used: replacing it changes nothing. *)
Theorem X8_dataset_and_data_are_used_by_kind :
  forall (w : World) (rank : nat) (gpus : list nat) (c : HydraConfig)
         (st : State),
    (kind c <> "gnn" ->
     forall d d' : option Dataset,
       run rank gpus d c w st = run rank gpus d' c w st) /\
    (kind c <> "cnn" \/ no_data_loaders (tasks c) ->
     forall (d : option Dataset) (v : Value),
       run rank gpus d (set_data v c) w st = run rank gpus d c w st).
Proof.
  intros w rank gpus c st. split.
  - intros Hk d d'. apply String.eqb_neq in Hk.
    rewrite !run_outcome. unfold run_steps, bootstrap_steps. now rewrite Hk.
  - intros H d v. rewrite !run_outcome. unfold run_steps, bootstrap_steps.
    cbn [set_data kind model engine tasks].
    now rewrite (@configure_steps_set_data v c (tasks c) H).
Qed.

(** X8, on a run of kind cnn given a dataset, and on a run of kind gnn
    given another data configuration. *)
Lemma X8_witness :
  run 0 [] (Some (DatasetObj 5)) (Sample.config [] "cnn") Sample.calm_world
      (init_state []) =
  run 0 [] None (Sample.config [] "cnn") Sample.calm_world (init_state []) /\
  run 0 [] None (set_data (VStr "other") (Sample.config [] "gnn"))
      Sample.calm_world (init_state []) =
  run 0 [] None (Sample.config [] "gnn") Sample.calm_world (init_state []).
Proof.
  split.
  - refine (proj1 (X8_dataset_and_data_are_used_by_kind Sample.calm_world 0 []
                     (Sample.config [] "cnn") (init_state [])) _ _ _).
    discriminate.
  - refine (proj2 (X8_dataset_and_data_are_used_by_kind Sample.calm_world 0 []
                     (Sample.config [] "gnn") (init_state [])) _ _ _).
    left. discriminate.
Defined.

(** The trace of a worker of a run on more than one accelerator. *)
Lemma run_multi_trace w rank gpus dataset c h :
  multi gpus = true ->
  exists rest,
    fst (outcome w h (run_steps w rank gpus dataset c)) =
      Log (RunningWorker rank (DevIndex rank)) ::
      ddp_events rank (length gpus) ++ rest /\
    filter is_process_group rest = [].
Proof.
  intros Hm. rewrite (run_steps_multi w rank gpus dataset c Hm).
  set (restp := SCall (BuildModel (model c) (DevIndex rank) true) :: _).
  assert (HF : Forall (fun ev => is_process_group ev = false)
                      (step_events restp)).
  { unfold restp.
    change (SCall ?a :: ?l ++ ?r) with ([SCall a] ++ l ++ r).
    rewrite step_events_app, Forall_app. split; [repeat constructor|].
    rewrite step_events_app, Forall_app. split.
    - destruct (kind c =? "gnn"); repeat constructor.
    - eapply Forall_impl; [|apply rest_steps_after_bootstrap].
      intros ev [Hev|[Hev|Hev]];
        destruct ev as [[]| | | | | | | | | | | | | | | | | |];
        try reflexivity; discriminate. }
  rewrite outcome_app. cbn [outcome app].
  destruct (raises w _ (InitProcessGroup "nccl" "env://" rank (length gpus))).
  - exists []. split; reflexivity.
  - pose proof (outcome_Forall w
                  ((h ++ [Log (RunningWorker rank (DevIndex rank));
                          Setenv "MASTER_ADDR" "localhost";
                          Setenv "MASTER_PORT" "12355"]) ++
                   [InitProcessGroup "nccl" "env://" rank (length gpus)])
                  restp HF) as HF'.
    destruct (outcome w _ restp) as [evs r]. cbn [fst snd app] in *.
    exists evs. split; [reflexivity|]. now apply filter_none.
Qed.

(** The controlling process of a run on more than one accelerator, in a
    calm world. *)
Lemma main_distributed child c w files :
  calm w -> 2 <= length (gpu_list c) ->
  exists evs files',
    Forall (fun ev => is_dir_event (dump_path c) ev \/ ev = BuildDataset c) evs /\
    let outs := map (worker_outcome child (shared_dataset w c) c files')
                    (seq 0 (length (gpu_list c))) in
    main child c w (init_state files) =
    ({| trace := evs ++ [Log MultipleGpus;
                         Log (AccessibleDevices (map devid (gpu_list c)));
                         ConfigureLog;
                         Spawn (length (gpu_list c))];
        fs := files'; spawned := outs |},
     match find is_failure outs with
     | Some o => Raise (ProcessRaisedException (fst o))
     | None => Ok tt
     end).
Proof.
  intros Hcalm Hlen.
  destruct (main_calm child c (init_state files) Hcalm)
    as (evs & files' & Hmain & Hevs).
  exists evs, files'. split; [exact Hevs|]. cbv zeta.
  rewrite Hmain, launch_cases. cbv zeta.
  destruct (length (gpu_list c)) as [|[|n]] eqn:En; [lia | lia |].
  destruct Hcalm as [Hq _]. rewrite Hq, mp_spawn_cases, Hq. cbv zeta.
  cbn [trace fs spawned extend init_state app]. rewrite <- app_assoc.
  reflexivity.
Qed.

(** X9.  The workers of a distributed run join one process group.  In a
    calm controlling process and for an accelerator list of length
    n >= 2, the controlling process itself touches neither the environment
    nor the process group; it spawns n workers, and the worker of rank i,
    whatever its own collaborators do, sets the same rendezvous address
    and port and initialises the process group with rank i and world size
    n, the number of workers spawned, right after announcing itself and
    never again. *)
Theorem X9_spawned_workers_join_one_process_group :
  forall (child : nat -> World) (c : HydraConfig) (w : World)
         (files : list string),
    calm w ->
    2 <= length (gpu_list c) ->
    let out := main child c w (init_state files) in
    let n := length (gpu_list c) in
    filter is_process_group (trace (fst out)) = [] /\
    length (spawned (fst out)) = n /\
    forall i tr r,
      In (i, (tr, r)) (spawned (fst out)) ->
      i < n /\
      exists rest,
        tr = Log (RunningWorker i (DevIndex i)) :: ddp_events i n ++ rest /\
        filter is_process_group rest = [].
Proof.
  intros child c w files Hcalm Hlen out n. subst out n.
  destruct (main_distributed child c files Hcalm Hlen)
    as (evs & files' & Hevs & Hmain).
  cbv zeta in Hmain. rewrite Hmain. cbn [fst trace spawned].
  split; [|split].
  - rewrite filter_app. cbn [filter is_process_group]. rewrite app_nil_r.
    apply filter_none. eapply Forall_impl; [|apply (coordinator_events_plain Hevs)].
    now intros ev (H & _).
  - now rewrite length_map, length_seq.
  - intros i tr r Hin. apply in_map_iff in Hin.
    destruct Hin as (j & Hj & Hseq). apply in_seq in Hseq.
    unfold worker_outcome in Hj. injection Hj as -> Htr _.
    split; [lia|].
    rewrite run_outcome in Htr. cbn [fst trace extend init_state app] in Htr.
    subst tr. apply run_multi_trace. unfold multi. apply Nat.ltb_lt. lia.
Qed.

(** X9, spawning on the accelerators 2 and 3. *)
Lemma X9_witness :
  length (spawned (fst (main (fun _ => Sample.calm_world)
                             (Sample.config [2; 3] "cnn")
                             Sample.calm_world (init_state [])))) = 2.
Proof.
  refine (proj1 (proj2
    (@X9_spawned_workers_join_one_process_group (fun _ => Sample.calm_world)
       (Sample.config [2; 3] "cnn") Sample.calm_world []
       (conj sample_world_quiet (fun _ => eq_refl)) _))).
  cbn. lia.
Defined.

(** X10.  How a distributed run ends.  In a calm controlling process and
    for an accelerator list of length n >= 2, the controlling process
    logs the mode and the device names (cuda: followed by the identifier,
    in list order), configures logging, and only then spawns, once and
    with n processes; it runs no worker itself.  It returns normally
    exactly when every spawned worker did; otherwise it ends by the
    exception of the spawn, which names a worker that failed. *)
Theorem X10_distributed_run_outcome :
  forall (child : nat -> World) (c : HydraConfig) (w : World)
         (files : list string),
    calm w ->
    2 <= length (gpu_list c) ->
    let out := main child c w (init_state files) in
    let gpus := gpu_list c in
    (exists evs,
       trace (fst out) =
         evs ++ [Log MultipleGpus; Log (AccessibleDevices (map devid gpus));
                 ConfigureLog; Spawn (length gpus)] /\
       Forall (fun ev => phase_of ev = Coordinator) (trace (fst out))) /\
    (snd out = Ok tt <->
     forall i tr r, In (i, (tr, r)) (spawned (fst out)) -> r = Ok tt) /\
    (forall e,
       snd out = Raise e ->
       exists i tr e',
         e = ProcessRaisedException i /\
         In (i, (tr, Raise e')) (spawned (fst out))).
Proof.
  intros child c w files Hcalm Hlen out gpus. subst out gpus.
  destruct (main_distributed child c files Hcalm Hlen)
    as (evs & files' & Hevs & Hmain).
  cbv zeta in Hmain. rewrite Hmain. cbn [fst snd trace spawned].
  set (outs := map (worker_outcome child (shared_dataset w c) c files')
                   (seq 0 (length (gpu_list c)))).
  split; [|split].
  - exists evs. split; [reflexivity|]. apply Forall_app. split.
    + eapply Forall_impl; [|exact Hevs].
      intros ev [Hev| ->]; [|reflexivity].
      destruct ev as [[]| | | | | | | | | | | | | | | | | |];
        cbn in Hev; try contradiction; reflexivity.
    + repeat constructor.
  - destruct (find is_failure outs) as [o|] eqn:Ef.
    + split; [discriminate|]. intros Hall. exfalso.
      apply find_some in Ef. destruct Ef as [Hin Hf].
      destruct o as [i [tr r]]. rewrite (Hall i tr r Hin) in Hf. discriminate.
    + split; [|reflexivity]. intros _ i tr r Hin.
      pose proof (find_none _ _ Ef _ Hin) as Hf. unfold is_failure in Hf.
      cbn [snd] in Hf. now destruct r as [[]|e].
  - intros e He. destruct (find is_failure outs) as [o|] eqn:Ef; [|discriminate].
    injection He as <-. apply find_some in Ef. destruct Ef as [Hin Hf].
    destruct o as [i [tr r]]. unfold is_failure in Hf. cbn [snd] in Hf.
    destruct r as [u|e']; [discriminate|]. now exists i, tr, e'.
Qed.

(** X10, spawning on the accelerators 2 and 3 with an engine whose [train]
    method raises in every worker. *)
Lemma X10_witness :
  exists i tr e',
    snd (main (fun _ => Sample.failing_train_world)
              (Sample.config [2; 3] "cnn")
              Sample.calm_world (init_state [])) = Raise (ProcessRaisedException i) /\
    In (i, (tr, Raise e'))
       (spawned (fst (main (fun _ => Sample.failing_train_world)
                           (Sample.config [2; 3] "cnn")
                           Sample.calm_world (init_state [])))).
Proof.
  assert (Hlen : 2 <= length (gpu_list (Sample.config [2; 3] "cnn")))
    by (cbn; lia).
  destruct (proj2 (proj2
    (@X10_distributed_run_outcome (fun _ => Sample.failing_train_world)
       (Sample.config [2; 3] "cnn") Sample.calm_world []
       (conj sample_world_quiet (fun _ => eq_refl)) Hlen))
    (ProcessRaisedException 0) eq_refl) as (i & tr & e' & He & Hin).
  exists i, tr, e'. split; [|exact Hin]. now rewrite <- He.
Defined.

Lemma ensure_dump_path_raise p w st e :
  snd (ensure_dump_path p w st) = Raise e ->
  e = FileExistsError p \/ e = Raised (Makedirs p).
Proof.
  rewrite ensure_dump_path_cases. cbv zeta.
  destruct (mem p (fs st ++ concurrent w (trace st))); [discriminate|].
  destruct (mem p _); [intros [= <-]; now left|].
  destruct (raises w _ (Makedirs p)); [intros [= <-]; now right|discriminate].
Qed.

Lemma launch_failures child dataset c w st e :
  snd (launch child dataset c w st) = Raise e ->
  (2 <= length (gpu_list c) /\
   (e = Raised ConfigureLog \/ e = Raised (Spawn (length (gpu_list c)))) /\
   spawned (fst (launch child dataset c w st)) = spawned st) \/
  (2 <= length (gpu_list c) /\
   exists i tr e',
     e = ProcessRaisedException i /\
     In (i, (tr, Raise e')) (spawned (fst (launch child dataset c w st)))) \/
  (length (gpu_list c) <= 1 /\
   exists m,
     launch child dataset c w st =
       run 0 (gpu_list c) dataset c w (record (Log m) st)).
Proof.
  destruct (le_lt_dec (length (gpu_list c)) 1) as [Hle|Hlt].
  - intros _. right. right. split; [exact Hle|].
    destruct (launch_inline child dataset c w st Hle) as (m & _ & Hm).
    now exists m.
  - rewrite launch_cases. cbv zeta.
    destruct (length (gpu_list c)) as [|[|n]] eqn:En; [lia | lia |].
    destruct (raises w _ ConfigureLog).
    { cbn [fst snd spawned extend]. intros [= <-]. left. auto. }
    rewrite mp_spawn_cases.
    destruct (raises w _ (Spawn (S (S n)))).
    { cbn [fst snd spawned extend record]. intros [= <-]. left. auto. }
    cbv zeta. cbn [fst snd spawned].
    destruct (find is_failure _) as [o|] eqn:Ef; [|discriminate].
    intros [= <-]. right. left. split; [lia|].
    apply find_some in Ef. destruct Ef as [Hin Hf].
    destruct o as [i [tr r]]. unfold is_failure in Hf. cbn [snd] in Hf.
    destruct r as [u|e']; [discriminate|]. now exists i, tr, e'.
Qed.

(** X11.  The ways the controlling process can fail.  When [main] ends by
    an exception, one of four things happened.  The output directory or
    the dataset failed (the directory appeared between the existence check
    and its creation, or its creation or the dataset builder raised): then
    no launch mode was chosen, no worker was started and nothing was
    spawned.  Or, for two accelerators or more, the logging configuration
    or the spawn itself raised: then no worker ran.  Or, for two
    accelerators or more, a spawned worker failed, and the exception names
    one that did.  Or, for at most one accelerator, the exception is that
    of the inline worker. *)
Theorem X11_controller_failures :
  forall (child : nat -> World) (c : HydraConfig) (w : World) (st : State)
         (e : Exn),
    let out := main child c w st in
    let gpus := gpu_list c in
    snd out = Raise e ->
    ((e = FileExistsError (dump_path c) \/
      e = Raised (Makedirs (dump_path c)) \/
      e = Raised (BuildDataset c)) /\
     spawned (fst out) = spawned st /\
     exists evs,
       trace (fst out) = trace st ++ evs /\
       filter is_classification evs = [] /\
       filter is_worker_start evs = []) \/
    (2 <= length gpus /\
     (e = Raised ConfigureLog \/ e = Raised (Spawn (length gpus))) /\
     spawned (fst out) = spawned st) \/
    (2 <= length gpus /\
     exists i tr e',
       e = ProcessRaisedException i /\
       In (i, (tr, Raise e')) (spawned (fst out))) \/
    (length gpus <= 1 /\
     exists st',
       out = run 0 gpus (shared_dataset w c) c w st' /\
       spawned st' = spawned st).
Proof.
  intros child c w st e out gpus. subst out gpus. unfold main, bind.
  destruct (ensure_dump_path_events (dump_path c) w st)
    as (e1 & Ht1 & Hs1 & Hd & _).
  pose proof (@ensure_dump_path_raise (dump_path c) w st) as Hr1.
  pose proof (dir_events_no_classification Hd) as Hc1.
  destruct (dir_events_quiet Hd) as [_ Hw1].
  destruct (ensure_dump_path (dump_path c) w st) as [st1 [[]|e0]];
    cbn [fst snd] in *.
  2:{ intros [= <-]. left. split; [|split; [exact Hs1|]].
      - destruct (Hr1 e0 eq_refl) as [->| ->]; auto.
      - now exists e1. }
  rewrite acquire_dataset_cases. unfold shared_dataset.
  assert (Hlaunch : forall st2 : State,
            spawned st2 = spawned st ->
            snd (launch child (if kind c =? "gnn" then Some (built_dataset w)
                               else None) c w st2) = Raise e ->
            (2 <= length (gpu_list c) /\
             (e = Raised ConfigureLog \/ e = Raised (Spawn (length (gpu_list c)))) /\
             spawned (fst (launch child (if kind c =? "gnn"
                                         then Some (built_dataset w)
                                         else None) c w st2)) = spawned st) \/
            (2 <= length (gpu_list c) /\
             exists i tr e',
               e = ProcessRaisedException i /\
               In (i, (tr, Raise e'))
                  (spawned (fst (launch child (if kind c =? "gnn"
                                               then Some (built_dataset w)
                                               else None) c w st2)))) \/
            (length (gpu_list c) <= 1 /\
             exists st',
               launch child (if kind c =? "gnn" then Some (built_dataset w)
                             else None) c w st2 =
               run 0 (gpu_list c) (if kind c =? "gnn"
                                   then Some (built_dataset w) else None)
                   c w st' /\
               spawned st' = spawned st)).
  { intros st2 Hs2 He.
    destruct (launch_failures _ _ _ _ _ He)
      as [(Hl & Hcase & Hsp)|[(Hl & Hw)|(Hl & m & Hm)]].
    - left. split; [exact Hl|]. split; [exact Hcase|]. now rewrite Hsp.
    - right. left. now split.
    - right. right. split; [exact Hl|]. exists (record (Log m) st2).
      split; [exact Hm | exact Hs2]. }
  destruct (kind c =? "gnn").
  - destruct (raises w (trace st1) (BuildDataset c)).
    + cbn [fst snd trace spawned record]. intros [= <-]. left.
      split; [auto|]. split; [exact Hs1|].
      exists (e1 ++ [BuildDataset c]). rewrite Ht1, <- app_assoc.
      split; [reflexivity|]. rewrite !filter_app, Hc1, Hw1. split; reflexivity.
    + cbn [fst snd]. intros He. right.
      apply (Hlaunch (record (BuildDataset c) st1)); [exact Hs1 | exact He].
  - cbn [fst snd]. intros He. right. apply (Hlaunch st1); [exact Hs1 | exact He].
Qed.

(** X11, on a launch during which another one creates the output
    directory. *)
Lemma X11_witness :
  snd (main (fun _ => Sample.calm_world) (Sample.config [] "cnn")
            Sample.racing_world (init_state [])) =
    Raise (FileExistsError "/dump") /\
  spawned (fst (main (fun _ => Sample.calm_world) (Sample.config [] "cnn")
                     Sample.racing_world (init_state []))) = [].
Proof.
  split; [reflexivity|].
  destruct (@X11_controller_failures (fun _ => Sample.calm_world)
              (Sample.config [] "cnn") Sample.racing_world (init_state [])
              (FileExistsError "/dump") eq_refl)
    as [(_ & Hs & _)|[(Hl & _)|[(Hl & _)|(_ & st' & _ & _)]]].
  - exact Hs.
  - cbn in Hl. lia.
  - cbn in Hl. lia.
  - reflexivity.
Defined.

Lemma devid_inj x y : devid x = devid y -> x = y.
Proof.
  unfold devid. cbn [String.append]. intros H. injection H as H.
  assert (Hn : forall n, Nat.to_uint n <> Decimal.Nil).
  { intros n. rewrite <- (DecimalNat.Unsigned.of_to n) at 1.
    rewrite DecimalNat.Unsigned.to_of. apply DecimalFacts.unorm_nonnil. }
  apply DecimalNat.Unsigned.to_uint_inj.
  assert (Hs : Some (Nat.to_uint x) = Some (Nat.to_uint y)).
  { rewrite <- !NilZero.usu by apply Hn. now rewrite H. }
  now injection Hs.
Qed.

(** X12.  The device names of the log identify the accelerators: two
    accelerator lists with the same list of names (cuda: followed by the
    decimal identifier, line 95) are the same list. *)
Theorem X12_device_names_identify_accelerators :
  forall gpus gpus' : list nat,
    map devid gpus = map devid gpus' -> gpus = gpus'.
Proof.
  induction gpus as [|x gpus IH]; intros [|y gpus'] H; try discriminate.
  - reflexivity.
  - cbn [map] in H. injection H as Hx Hl.
    rewrite (IH gpus' Hl). f_equal.
    apply devid_inj. unfold devid. now rewrite Hx.
Qed.

(** X12, on the names cuda:2 and cuda:13. *)
Lemma X12_witness :
  map devid [2; 13] = ["cuda:2"; "cuda:13"] /\ [2; 13] = [2; 13].
Proof.
  split; [reflexivity|].
  exact (@X12_device_names_identify_accelerators [2; 13] [2; 13] eq_refl).
Defined.
